(** * The clinical-trials table profilers

    A shallow embedding of [analyze_column_population] and
    [analyze_jsonb_field], the two profiling functions that
    [analyze_clinical_trials.py] and [analyze_clinical_trials_psycopg.py]
    each define, with the properties the specification states about them.

    Python dictionaries keep insertion order and both functions iterate
    over [items()], so a dictionary is an association list; Python sets
    ([all_columns], [all_keys], [data_types]) are [gset string]; the text
    written by [print] is a list of structured lines. *)

From Stdlib Require Import QArith.
From stdpp Require Import base list strings gmap sorting pretty.

Local Close Scope Q_scope.

Local Open Scope string_scope.
Local Open Scope list_scope.

(** ** Python values *)

(** The functions observe a float through [bool(x)] and [str(x)] only, and
    a float is carried as those two observations. *)
Record pyfloat := PyFloat { float_nonzero : bool; float_str : string }.

(** Values that are neither a list nor a dict. *)
Inductive scalar :=
| SNone
| SBool (b : bool)
| SInt (z : Z)
| SFloat (f : pyfloat)
| SStr (s : string).

#[warnings="-register-all"]
Inductive value :=
| VScalar (s : scalar)
| VList (l : list value)
| VDict (d : list (string * value)).

Coercion VScalar : scalar >-> value.

Abbreviation VNone := (VScalar SNone).
Abbreviation VBool b := (VScalar (SBool b)).
Abbreviation VInt z := (VScalar (SInt z)).
Abbreviation VFloat f := (VScalar (SFloat f)).
Abbreviation VStr s := (VScalar (SStr s)).

(** A dictionary with string keys, in insertion order. *)
Definition dict (V : Type) : Type := list (string * V).

(** One row of the table. *)
Definition record : Type := dict value.

Definition keys {V} (d : dict V) : list string := d.*1.

Fixpoint dict_lookup {V} (k : string) (d : dict V) : option V :=
  match d with
  | [] => None
  | (k', v) :: d' => if decide (k = k') then Some v else dict_lookup k d'
  end.

(** [d.get(k)]: the value stored under [k], or [None]. *)
Definition dict_get (k : string) (d : record) : value :=
  default VNone (dict_lookup k d).

(** [d[k] = v]: a present key keeps its place, a new key goes last. *)
Fixpoint dict_set {V} (k : string) (v : V) (d : dict V) : dict V :=
  match d with
  | [] => [(k, v)]
  | (k', v') :: d' =>
      if decide (k = k') then (k, v) :: d' else (k', v') :: dict_set k v d'
  end.

(** [type(v).__name__] *)
Definition type_name (v : value) : string :=
  match v with
  | VNone => "NoneType"
  | VBool _ => "bool"
  | VInt _ => "int"
  | VFloat _ => "float"
  | VStr _ => "str"
  | VList _ => "list"
  | VDict _ => "dict"
  end.

(** [str(v)] of a scalar. *)
Definition str (s : scalar) : string :=
  match s with
  | SNone => "None"
  | SBool b => if b then "True" else "False"
  | SInt z => pretty z
  | SFloat f => float_str f
  | SStr s => s
  end.

(** [bool(v)], the test of [if v]. *)
Definition truthy (v : value) : bool :=
  match v with
  | VNone => false
  | VBool b => b
  | VInt z => negb (z =? 0)%Z
  | VFloat f => float_nonzero f
  | VStr s => negb (String.eqb s "")
  | VList l => match l with [] => false | _ => true end
  | VDict d => match d with [] => false | _ => true end
  end.

(** [v is not None] *)
Definition is_not_None (v : value) : bool :=
  match v with VNone => false | _ => true end.

(** [v != ''] *)
Definition ne_empty_str (v : value) : bool :=
  match v with VStr s => negb (String.eqb s "") | _ => true end.

(** [v != []] *)
Definition ne_empty_list (v : value) : bool :=
  match v with VList [] => false | _ => true end.

(** [s[:n]] *)
Definition str_take (n : nat) (s : string) : string := String.substring 0 n s.

(** [sorted(s)] of a set of strings. *)
Definition sorted (s : gset string) : list string :=
  merge_sort String.le (elements s).

(** ** Exceptions *)

Inductive exn :=
| ZeroDivisionError
| TypeError
| AttributeError
| KeyError
| IndexError.

Inductive result (A : Type) :=
| Ok (a : A)
| Raise (e : exn).
Arguments Ok {A} a.
Arguments Raise {A} e.

Global Instance result_ret : MRet result := λ A a, Ok a.
Global Instance result_bind : MBind result := λ A B f m,
  match m with
  | Ok a => f a
  | Raise e => Raise e
  end.

(** [len(v)] *)
Definition py_len (v : value) : result nat :=
  match v with
  | VStr s => Ok (String.length s)
  | VList l => Ok (length l)
  | VDict d => Ok (length d)
  | _ => Raise TypeError
  end.

(** [v[0]]; the keys of a dict are strings, so [0] is never one. *)
Definition py_index0 (v : value) : result value :=
  match v with
  | VStr s =>
      match s with
      | String c _ => Ok (VStr (String c ""))
      | EmptyString => Raise IndexError
      end
  | VList l => match l with x :: _ => Ok x | [] => Raise IndexError end
  | VDict _ => Raise KeyError
  | _ => Raise TypeError
  end.

(** [v.items()] *)
Definition py_items (v : value) : result (list (string * value)) :=
  match v with
  | VDict d => Ok d
  | _ => Raise AttributeError
  end.

(** [a / b] on counts; the quotient is kept as the exact rational, of
    which the float that the code computes is the rounding: what is
    stated of it below (the error on a zero divisor, the bounds, the
    values 0 and 100) holds of the float as well. *)
Definition py_div (a b : nat) : result Q :=
  if decide (b = 0%nat) then Raise ZeroDivisionError
  else Ok (inject_Z (Z.of_nat a) / inject_Z (Z.of_nat b))%Q.

(** ** Printed output *)

(** One [print] call of [analyze_jsonb_field], with the values that its
    format string interpolates. *)
Inductive line :=
| NoPopulated (field_name : string)
    (* "  No populated {field_name} fields found in sample" *)
| Found (n : nat) (field_name : string)
    (* "  Found {n} populated {field_name} fields" *)
| TypeArray                        (* "  Type: Array of objects" *)
| ArrayLengths (lens : list nat)   (* "  Array lengths: {lens}" *)
| SampleItemStructure              (* "  Sample item structure:" *)
| TypeObject                       (* "  Type: Object" *)
| KeysFound (all_keys : list string) (* "  Keys found: {all_keys}" *)
| SampleStructure                  (* "  Sample structure:" *)
| KeyType (key val_type : string)  (* "    - {key}: {val_type}" *)
| KeyTypeValue (key val_type val : string).
    (* "    - {key}: {val_type} = {val}" *)

(** A run of code that prints: the lines written so far, and either the
    value it returned or the exception that ended it. *)
Definition printing (A : Type) : Type := list line * result A.

Global Instance printing_ret : MRet printing := λ A a, ([], Ok a).
Global Instance printing_bind : MBind printing := λ A B f m,
  match m.2 with
  | Ok a => (m.1 ++ (f a).1, (f a).2)
  | Raise e => (m.1, Raise e)
  end.

Definition print (l : line) : printing unit := ([l], Ok ()).

(** An expression evaluated for its value, which may raise. *)
Definition eval {A} (r : result A) : printing A := ([], r).

(** [for x in l: f(x)] *)
Fixpoint for_each {A} (f : A → printing unit) (l : list A) : printing unit :=
  match l with
  | [] => mret ()
  | x :: l' => f x;; for_each f l'
  end.

(** ** Column statistics *)

Record column_stat := ColumnStat {
  populated : nat;
  total : nat;
  percentage : Q;
  (** [data_types]; the string stored under ['type'] joins the members in
      the set's iteration order, or is ['unknown'] for the empty set *)
  type : gset string;
  sample_values : list string
}.

Module Supabase.

(** [analyze_clinical_trials.py] *)

(** The union of the records' keys. *)
Definition all_columns (records : list record) : gset string :=
  foldl (λ all_columns record, all_columns ∪ list_to_set (keys record))
        ∅ records.

(** The test that counts a value as populated. *)
Definition is_populated (value : value) : bool :=
  is_not_None value && ne_empty_str value && ne_empty_list value.

(** The entry appended to [sample_values]. *)
Definition sample_value (value : value) : string :=
  match value with
  | VList l => type_name value +:+ " with " +:+ pretty (length l) +:+ " items"
  | VDict d => type_name value +:+ " with " +:+ pretty (length d) +:+ " items"
  | VScalar s =>
      if decide (50 < String.length (str s))%nat
      then str_take 50 (str s) +:+ "..."
      else str s
  end.

(** One pass of the loop over [records] for the column [col], on the
    state [(populated, sample_values, data_types)]. *)
Definition scan_record (col : string)
    (st : nat * list string * gset string) (record : record)
    : nat * list string * gset string :=
  let '(populated, sample_values, data_types) := st in
  let value := dict_get col record in
  if is_populated value then
    (populated + 1,
     (if decide (length sample_values < 3)
      then sample_values ++ [sample_value value]
      else sample_values),
     data_types ∪ {[ type_name value ]})
  else st.

Definition scan_column (col : string) (records : list record)
    : nat * list string * gset string :=
  foldl (scan_record col) (0, [], ∅) records.

(** The body of the loop over the sorted columns. *)
Definition column_entry (records : list record)
    (column_stats : dict column_stat) (col : string)
    : result (dict column_stat) :=
  let '(populated, sample_values, data_types) := scan_column col records in
  q ← py_div populated (length records);
  mret (dict_set col
          {| populated := populated;
             total := length records;
             percentage := (q * 100)%Q;
             type := data_types;
             sample_values := sample_values |}
          column_stats).

Fixpoint for_columns (records : list record) (cols : list string)
    (column_stats : dict column_stat) : result (dict column_stat) :=
  match cols with
  | [] => mret column_stats
  | col :: cols' =>
      column_stats' ← column_entry records column_stats col;
      for_columns records cols' column_stats'
  end.

Definition analyze_column_population (records : list record)
    : result (dict column_stat) :=
  match records with
  | [] => mret []
  | _ => for_columns records (sorted (all_columns records)) []
  end.

(** The list comprehension [[r.get(field_name) for r in records if
    r.get(field_name)]]. *)
Definition field_values (records : list record) (field_name : string)
    : list value :=
  dict_get field_name <$>
    filter (λ r, truthy (dict_get field_name r)) records.

(** The loop that prints the structure of the first non-empty array and
    breaks. *)
Fixpoint sample_item_structure (field_values : list value) : printing unit :=
  match field_values with
  | [] => mret ()
  | values :: rest =>
      go ← (if truthy values
            then n ← eval (py_len values); mret (bool_decide (0 < n))
            else mret false);
      if (go : bool) then
        print SampleItemStructure;;
        sample_item ← eval (py_index0 values);
        items ← eval (py_items sample_item);
        for_each (λ '(key, val), print (KeyType key (type_name val))) items
      else sample_item_structure rest
  end.

(** [all_keys] after the loop over [field_values]. *)
Definition all_keys (field_values : list value) : gset string :=
  foldl (λ all_keys value,
           match value with
           | VDict d => all_keys ∪ list_to_set (keys d)
           | _ => all_keys
           end) ∅ field_values.

(** The line printed for one item of the sample object. *)
Definition sample_line (key : string) (val : value) : line :=
  match val with
  | VScalar ((SStr _ | SInt _ | SFloat _ | SBool _) as s) =>
      KeyTypeValue key (type_name val) (str_take 50 (str s))
  | _ => KeyType key (type_name val)
  end.

Definition analyze_jsonb_field (records : list record) (field_name : string)
    : printing unit :=
  let field_values := field_values records field_name in
  match field_values with
  | [] => print (NoPopulated field_name)
  | first :: _ =>
      print (Found (length field_values) field_name);;
      match first with
      | VList _ =>
          print TypeArray;;
          lens ← eval (mapM py_len (take 5 field_values));
          print (ArrayLengths lens);;
          sample_item_structure field_values
      | VDict _ =>
          print TypeObject;;
          print (KeysFound (sorted (all_keys field_values)));;
          print SampleStructure;;
          sample ← eval (py_items first);
          for_each (λ '(key, val), print (sample_line key val)) sample
      | _ => mret ()
      end
  end.

End Supabase.

Module Psycopg.

(** [analyze_clinical_trials_psycopg.py] *)

(** The union of the records' keys. *)
Definition all_columns (records : list record) : gset string :=
  foldl (λ all_columns record, all_columns ∪ list_to_set (keys record))
        ∅ records.

(** The test that counts a value as populated. *)
Definition is_populated (value : value) : bool :=
  is_not_None value && ne_empty_str value && ne_empty_list value.

(** The entry appended to [sample_values]. *)
Definition sample_value (value : value) : string :=
  match value with
  | VList l => type_name value +:+ " with " +:+ pretty (length l) +:+ " items"
  | VDict d => type_name value +:+ " with " +:+ pretty (length d) +:+ " items"
  | VScalar s =>
      if decide (50 < String.length (str s))%nat
      then str_take 50 (str s) +:+ "..."
      else str s
  end.

(** One pass of the loop over [records] for the column [col], on the
    state [(populated, sample_values, data_types)]. *)
Definition scan_record (col : string)
    (st : nat * list string * gset string) (record : record)
    : nat * list string * gset string :=
  let '(populated, sample_values, data_types) := st in
  let value := dict_get col record in
  if is_populated value then
    (populated + 1,
     (if decide (length sample_values < 3)
      then sample_values ++ [sample_value value]
      else sample_values),
     data_types ∪ {[ type_name value ]})
  else st.

Definition scan_column (col : string) (records : list record)
    : nat * list string * gset string :=
  foldl (scan_record col) (0, [], ∅) records.

(** The body of the loop over the sorted columns. *)
Definition column_entry (records : list record)
    (column_stats : dict column_stat) (col : string)
    : result (dict column_stat) :=
  let '(populated, sample_values, data_types) := scan_column col records in
  q ← py_div populated (length records);
  mret (dict_set col
          {| populated := populated;
             total := length records;
             percentage := (q * 100)%Q;
             type := data_types;
             sample_values := sample_values |}
          column_stats).

Fixpoint for_columns (records : list record) (cols : list string)
    (column_stats : dict column_stat) : result (dict column_stat) :=
  match cols with
  | [] => mret column_stats
  | col :: cols' =>
      column_stats' ← column_entry records column_stats col;
      for_columns records cols' column_stats'
  end.

Definition analyze_column_population (records : list record)
    : result (dict column_stat) :=
  match records with
  | [] => mret []
  | _ => for_columns records (sorted (all_columns records)) []
  end.

(** The list comprehension [[r.get(field_name) for r in records if
    r.get(field_name)]]. *)
Definition field_values (records : list record) (field_name : string)
    : list value :=
  dict_get field_name <$>
    filter (λ r, truthy (dict_get field_name r)) records.

(** The loop that prints the structure of the first non-empty array and
    breaks. *)
Fixpoint sample_item_structure (field_values : list value) : printing unit :=
  match field_values with
  | [] => mret ()
  | values :: rest =>
      go ← (if truthy values
            then n ← eval (py_len values); mret (bool_decide (0 < n))
            else mret false);
      if (go : bool) then
        print SampleItemStructure;;
        sample_item ← eval (py_index0 values);
        items ← eval (py_items sample_item);
        for_each (λ '(key, val), print (KeyType key (type_name val))) items
      else sample_item_structure rest
  end.

(** [all_keys] after the loop over [field_values]. *)
Definition all_keys (field_values : list value) : gset string :=
  foldl (λ all_keys value,
           match value with
           | VDict d => all_keys ∪ list_to_set (keys d)
           | _ => all_keys
           end) ∅ field_values.

(** The line printed for one item of the sample object. *)
Definition sample_line (key : string) (val : value) : line :=
  match val with
  | VScalar ((SStr _ | SInt _ | SFloat _ | SBool _) as s) =>
      KeyTypeValue key (type_name val) (str_take 50 (str s))
  | _ => KeyType key (type_name val)
  end.

Definition analyze_jsonb_field (records : list record) (field_name : string)
    : printing unit :=
  let field_values := field_values records field_name in
  match field_values with
  | [] => print (NoPopulated field_name)
  | first :: _ =>
      print (Found (length field_values) field_name);;
      match first with
      | VList _ =>
          print TypeArray;;
          lens ← eval (mapM py_len (take 5 field_values));
          print (ArrayLengths lens);;
          sample_item_structure field_values
      | VDict _ =>
          print TypeObject;;
          print (KeysFound (sorted (all_keys field_values)));;
          print SampleStructure;;
          sample ← eval (py_items first);
          for_each (λ '(key, val), print (sample_line key val)) sample
      | _ => mret ()
      end
  end.

End Psycopg.

(** ** What the specification says of the column profiler *)

(** A record counts for a column when the value is present, non-null,
    not the empty string and not the empty array. *)
Definition counts_as_populated (col : string) (r : record) : Prop :=
  ∃ v, dict_lookup col r = Some v ∧ v ≠ VNone ∧ v ≠ VStr "" ∧ v ≠ VList [].

(** The count reported for a column, when the profiler returns and
    reports the column. *)
Definition populated_of (records : list record) (col : string) : option nat :=
  match Supabase.analyze_column_population records with
  | Ok column_stats => populated <$> dict_lookup col column_stats
  | Raise _ => None
  end.

(** The samples reported for a column. *)
Definition samples_of (records : list record) (col : string)
    : option (list string) :=
  match Supabase.analyze_column_population records with
  | Ok column_stats => sample_values <$> dict_lookup col column_stats
  | Raise _ => None
  end.

Global Instance counts_as_populated_dec col r :
  Decision (counts_as_populated col r).
Proof.
  unfold counts_as_populated.
  destruct (dict_lookup col r) as [[[| | | |[|a s]]|[|x l]|d]|];
    first
      [ left; eexists; repeat split; [done | congruence..]
      | right; intros (? & [= <-] & ? & ? & ?); congruence
      | right; by intros (? & [=] & _) ].
Defined.

(** The values that the loop over [records] counts, in record order. *)
Definition populated_values (col : string) (records : list record)
    : list value :=
  dict_get col <$> filter (counts_as_populated col) records.

(** The statistic stored for a column. *)
Definition column_stat_of (records : list record) (col : string)
    : column_stat :=
  let values := populated_values col records in
  {| populated := length values;
     total := length records;
     percentage :=
       (inject_Z (Z.of_nat (length values))
        / inject_Z (Z.of_nat (length records)) * 100)%Q;
     type := list_to_set (type_name <$> values);
     sample_values := Supabase.sample_value <$> take 3 values |}.

(** How the specification renders a populated value as a sample. *)
Inductive renders : value → string → Prop :=
| renders_list l :
    renders (VList l) ("list with " +:+ pretty (length l) +:+ " items")
| renders_dict d :
    renders (VDict d) ("dict with " +:+ pretty (length d) +:+ " items")
| renders_long (s : scalar) pre suf :
    str s = pre +:+ suf → String.length pre = 50%nat → suf ≠ "" →
    renders s (pre +:+ "...")
| renders_short (s : scalar) :
    (String.length (str s) ≤ 50)%nat → renders s (str s).

(** A truthy value, in the specification's words: [True], a non-zero
    number, or a non-empty string, array or object. *)
Inductive Truthy : value → Prop :=
| Truthy_true : Truthy (VBool true)
| Truthy_int z : z ≠ 0%Z → Truthy (VInt z)
| Truthy_float f : float_nonzero f = true → Truthy (VFloat f)
| Truthy_str s : s ≠ "" → Truthy (VStr s)
| Truthy_list l : l ≠ [] → Truthy (VList l)
| Truthy_dict d : d ≠ [] → Truthy (VDict d).

(** A record whose value for the field joins the populated set. *)
Definition included (field_name : string) (r : record) : Prop :=
  ∃ v, dict_lookup field_name r = Some v ∧ Truthy v.

(** The line that reports one key of the sample object: the runtime type,
    and for a [str], [int], [float] or [bool] value also the first 50
    characters of its string. *)
Inductive describes (key : string) : value → line → Prop :=
| describes_scalar (s : scalar) t suf :
    s ≠ SNone → str s = t +:+ suf →
    String.length t = 50 `min` String.length (str s) →
    describes key s (KeyTypeValue key (type_name s) t)
| describes_null :
    describes key VNone (KeyType key "NoneType")
| describes_list l :
    describes key (VList l) (KeyType key "list")
| describes_dict d :
    describes key (VDict d) (KeyType key "dict").

Definition is_array (v : value) : bool :=
  match v with VList _ => true | _ => false end.

(** The populated values of the field that are arrays, in record order. *)
Definition populated_arrays (records : list record) (field_name : string)
    : list value :=
  filter (λ v, is_array v) (Supabase.field_values records field_name).

(** An array and its length. *)
Definition array_length (v : value) (n : nat) : Prop :=
  ∃ a, v = VList a ∧ n = length a.

(** The lengths that the ["Array lengths"] line of an output reports. *)
Fixpoint reported_lengths (out : list line) : option (list nat) :=
  match out with
  | [] => None
  | ArrayLengths lens :: _ => Some lens
  | _ :: out' => reported_lengths out'
  end.

(** ** Scenarios *)

(** The records of the specification's first scenario:
    [[{"a": 1, "b": []}, {"a": 2, "b": [{"x": 1}]}]]. *)
Definition scenario_ab : list record :=
  [ [("a", VInt 1); ("b", VList [])];
    [("a", VInt 2); ("b", VList [VDict [("x", VInt 1)]])] ].

(** The records of the specification's second scenario:
    [[{"c": {"k1": "v1"}}, {"c": {"k1": "v1", "k2": 2}}]]. *)
Definition scenario_c : list record :=
  [ [("c", VDict [("k1", VStr "v1")])];
    [("c", VDict [("k1", VStr "v1"); ("k2", VInt 2)])] ].

(** The records [[{"f": [1]}]]: a populated array whose first element is
    not an object. *)
Definition scenario_array_of_numbers : list record :=
  [ [("f", VList [VInt 1])] ].

(** The records [[{"f": [{"x": 1}]}, {"f": "ab"}]]: a populated array
    followed by a populated string. *)
Definition scenario_array_then_string : list record :=
  [ [("f", VList [VDict [("x", VInt 1)]])]; [("f", VStr "ab")] ].

(** The records [[{"locations": ["Boston"]}]]: an array of strings. *)
Definition scenario_array_of_strings : list record :=
  [ [("locations", VList [VStr "Boston"])] ].

(** Six records [{"f": [{"x": 1}]}] and then [{"f": "ab"}]: the first
    five populated values are arrays, a later one is a string. *)
Definition scenario_six_arrays_then_string : list record :=
  replicate 6 [("f", VList [VDict [("x", VInt 1)]])] ++ [[("f", VStr "ab")]].

(** ** The runtime operations *)

Section runtime.
Context {V : Type}.
Implicit Types (d : dict V) (k : string) (v : V).

Lemma dict_lookup_Some_keys k d v : dict_lookup k d = Some v → k ∈ keys d.
Proof.
  induction d as [|[k' v'] d IH]; simpl; [done|].
  case_decide; [intros _; subst; left | intros ?; right; auto].
Qed.

Lemma dict_lookup_is_Some k d : is_Some (dict_lookup k d) ↔ k ∈ keys d.
Proof.
  split; [intros [v ?]; by eapply dict_lookup_Some_keys|].
  induction d as [|[k' v'] d IH]; simpl; [by intros ?%elem_of_nil|].
  case_decide; [by eexists|].
  intros [?|?]%elem_of_cons; [done | auto].
Qed.

Lemma keys_dict_set_fresh k v d :
  k ∉ keys d → keys (dict_set k v d) = keys d ++ [k].
Proof.
  induction d as [|[k' v'] d IH]; simpl; [done|].
  intros [? ?]%not_elem_of_cons. case_decide; [done|].
  simpl. f_equal. by apply IH.
Qed.

Lemma dict_lookup_set_eq k v d : dict_lookup k (dict_set k v d) = Some v.
Proof.
  induction d as [|[k' v'] d IH]; simpl.
  - by rewrite decide_True.
  - case_decide; simpl; [by rewrite decide_True | by rewrite decide_False].
Qed.

Lemma dict_lookup_set_ne k k' v d :
  k ≠ k' → dict_lookup k' (dict_set k v d) = dict_lookup k' d.
Proof.
  intros Hne. induction d as [|[k'' v''] d IH]; simpl.
  - by rewrite decide_False.
  - case_decide; simpl; subst.
    + by rewrite !decide_False.
    + by rewrite IH.
Qed.
End runtime.

Lemma StronglySorted_strict {A} (R : relation A) `{!AntiSymm (=) R} l :
  StronglySorted R l → NoDup l → StronglySorted (strict R) l.
Proof.
  induction 1 as [|x l Hs IH Hx]; intros Hnd; [constructor|].
  apply NoDup_cons in Hnd as [Hnin Hnd].
  constructor; [by apply IH|].
  apply Forall_forall. intros y Hy. split.
  - by eapply Forall_forall in Hx.
  - intros Hyx. eapply Forall_forall in Hx; [|done].
    assert (x = y) by by apply (anti_symm R). by subst.
Qed.

Lemma elem_of_sorted k s : k ∈ sorted s ↔ k ∈ s.
Proof. unfold sorted. by rewrite merge_sort_Permutation, elem_of_elements. Qed.

Lemma NoDup_sorted s : NoDup (sorted s).
Proof.
  unfold sorted. rewrite merge_sort_Permutation. apply NoDup_elements.
Qed.

Lemma sorted_StronglySorted s : StronglySorted (strict String.le) (sorted s).
Proof.
  apply StronglySorted_strict; [apply _| |apply NoDup_sorted].
  apply StronglySorted_merge_sort; apply _.
Qed.

(** The order of [sorted] is the lexicographic one: character by
    character on the character codes, a proper prefix first. *)
Lemma string_le_nil t : String.le "" t.
Proof. by destruct t. Qed.

Lemma string_le_cons_nil a s : ¬ String.le (String a s) "".
Proof. by intros ?. Qed.

Lemma string_le_cons a s b t :
  String.le (String a s) (String b t) ↔
  (Ascii.N_of_ascii a < Ascii.N_of_ascii b)%N ∨ (a = b ∧ String.le s t).
Proof.
  unfold String.le, String.leb. simpl. unfold Ascii.compare.
  destruct (N.compare_spec (Ascii.N_of_ascii a) (Ascii.N_of_ascii b))
    as [Heq|Hlt|Hgt].
  - assert (a = b) as ->.
    { by rewrite <-(Ascii.ascii_N_embedding a), Heq, Ascii.ascii_N_embedding. }
    split; [by right | intros [?|[_ ?]]; [lia|done]].
  - split; [by left | done].
  - split; [done|]. intros [?|[-> _]]; lia.
Qed.

(** ** The column profiler *)

Lemma is_populated_iff v :
  Supabase.is_populated v = true ↔ v ≠ VNone ∧ v ≠ VStr "" ∧ v ≠ VList [].
Proof.
  destruct v as [[| | | |[|a s]]|[|x l]|d]; cbn;
    (split; [intros ?; repeat split; congruence | intros (? & ? & ?); congruence]).
Qed.

Lemma counts_as_populated_iff col r :
  counts_as_populated col r ↔ Supabase.is_populated (dict_get col r) = true.
Proof.
  unfold counts_as_populated, dict_get. rewrite is_populated_iff.
  destruct (dict_lookup col r) as [v|]; simpl.
  - split; [by intros (? & [= <-] & ?) | by exists v].
  - split; [by intros (? & [=] & ?) | intros (? & _); congruence].
Qed.

Lemma scan_records_from (col : string) (records : list record)
    (n : nat) (sv : list string) (dt : gset string) :
  (length sv ≤ 3)%nat →
  foldl (Supabase.scan_record col) (n, sv, dt) records =
  (n + length (populated_values col records),
   take 3 (sv ++ (Supabase.sample_value <$> populated_values col records)),
   dt ∪ list_to_set (type_name <$> populated_values col records)).
Proof.
  unfold populated_values.
  revert n sv dt. induction records as [|r records IH]; intros n sv dt Hsv.
  - simpl. rewrite app_nil_r, take_ge by done.
    f_equal; [f_equal; lia | by rewrite (right_id_L ∅ (∪))].
  - simpl. destruct (Supabase.is_populated (dict_get col r)) eqn:Hpop.
    + rewrite filter_cons_True by by apply counts_as_populated_iff.
      csimpl. case_decide as Hlen.
      * rewrite IH by (rewrite length_app; simpl; lia).
        rewrite <-app_assoc. csimpl.
        f_equal; [f_equal; lia | by rewrite (assoc_L (∪))].
      * rewrite IH by done.
        rewrite !take_app_le by lia.
        f_equal; [f_equal; lia | by rewrite (assoc_L (∪))].
    + rewrite filter_cons_False; [by apply IH|].
      rewrite counts_as_populated_iff. congruence.
Qed.

Lemma scan_column_spec col records :
  Supabase.scan_column col records =
  (length (populated_values col records),
   Supabase.sample_value <$> take 3 (populated_values col records),
   list_to_set (type_name <$> populated_values col records)).
Proof.
  unfold Supabase.scan_column. rewrite scan_records_from by (simpl; lia).
  simpl. rewrite fmap_take. f_equal. by rewrite (left_id_L ∅ (∪)).
Qed.

Section fold_dict_set.
Context {V : Type} (f : string → V).

Let store (acc : dict V) (cols : list string) : dict V :=
  foldl (λ acc col, dict_set col (f col) acc) acc cols.

Lemma keys_fold_dict_set (cols : list string) (acc : dict V) :
  NoDup cols → (∀ c, c ∈ cols → c ∉ keys acc) →
  keys (store acc cols) = keys acc ++ cols.
Proof.
  revert acc. induction cols as [|c cols IH]; intros acc Hnd Hfresh.
  - by rewrite app_nil_r.
  - apply NoDup_cons in Hnd as [Hc Hnd]. simpl.
    rewrite IH; [| done |].
    + rewrite keys_dict_set_fresh by (apply Hfresh; left).
      by rewrite <-app_assoc.
    + intros c' Hc'. rewrite keys_dict_set_fresh by (apply Hfresh; left).
      rewrite elem_of_app, list_elem_of_singleton.
      intros [?| ->]; [|done]. by eapply Hfresh; [right|].
Qed.

Lemma lookup_fold_dict_set_notin (cols : list string) (acc : dict V) c :
  c ∉ cols → dict_lookup c (store acc cols) = dict_lookup c acc.
Proof.
  revert acc. induction cols as [|c' cols IH]; intros acc Hc; [done|].
  apply not_elem_of_cons in Hc as [? ?]. simpl.
  rewrite IH by done. by apply dict_lookup_set_ne.
Qed.

Lemma lookup_fold_dict_set (cols : list string) (acc : dict V) c :
  NoDup cols → c ∈ cols → dict_lookup c (store acc cols) = Some (f c).
Proof.
  revert acc. induction cols as [|c' cols IH]; intros acc Hnd Hc.
  - by apply elem_of_nil in Hc.
  - apply NoDup_cons in Hnd as [Hc' Hnd]. simpl.
    apply elem_of_cons in Hc as [->|Hc]; [|by apply IH].
    rewrite lookup_fold_dict_set_notin by done.
    apply dict_lookup_set_eq.
Qed.
End fold_dict_set.

Lemma column_entry_Ok records column_stats col :
  records ≠ [] →
  Supabase.column_entry records column_stats col =
  Ok (dict_set col (column_stat_of records col) column_stats).
Proof.
  intros Hne. unfold Supabase.column_entry. rewrite scan_column_spec.
  unfold py_div. rewrite decide_False; [done|].
  by destruct records.
Qed.

Lemma for_columns_Ok records cols column_stats :
  records ≠ [] →
  Supabase.for_columns records cols column_stats =
  Ok (foldl (λ acc col, dict_set col (column_stat_of records col) acc)
        column_stats cols).
Proof.
  intros Hne. revert column_stats.
  induction cols as [|col cols IH]; intros column_stats; [done|].
  simpl. rewrite column_entry_Ok by done. apply IH.
Qed.

Lemma analyze_column_population_Ok records :
  Supabase.analyze_column_population records =
  Ok (foldl (λ acc col, dict_set col (column_stat_of records col) acc)
        [] (sorted (Supabase.all_columns records))).
Proof.
  destruct records as [|r records].
  - unfold sorted, Supabase.all_columns. simpl. by rewrite elements_empty.
  - by apply for_columns_Ok.
Qed.

Lemma elem_of_union_keys (records : list record) (acc : gset string) k :
  k ∈ foldl (λ all_columns record, all_columns ∪ list_to_set (keys record))
        acc records
  ↔ k ∈ acc ∨ ∃ r, r ∈ records ∧ k ∈ keys r.
Proof.
  revert acc. induction records as [|r records IH]; intros acc; simpl.
  - split; [by left | intros [?|(? & []%elem_of_nil & _)]; done].
  - rewrite IH, elem_of_union, elem_of_list_to_set. split.
    + intros [[?|?]|(r' & ? & ?)]; [by left | right..].
      * exists r. split; [left | done].
      * exists r'. split; [by right | done].
    + intros [?|(r' & [->|?]%elem_of_cons & ?)].
      * by left; left.
      * by left; right.
      * right. by exists r'.
Qed.

Lemma elem_of_all_columns records k :
  k ∈ Supabase.all_columns records ↔ ∃ r, r ∈ records ∧ k ∈ keys r.
Proof.
  unfold Supabase.all_columns. rewrite elem_of_union_keys.
  split; [intros [[]%not_elem_of_empty|?]; done | by right].
Qed.

Lemma analyze_column_population_lookup records col :
  col ∈ Supabase.all_columns records →
  ∃ column_stats,
    Supabase.analyze_column_population records = Ok column_stats
    ∧ dict_lookup col column_stats = Some (column_stat_of records col).
Proof.
  intros Hcol. eexists. split; [apply analyze_column_population_Ok|].
  apply lookup_fold_dict_set; [apply NoDup_sorted | by apply elem_of_sorted].
Qed.

(** ** The nested-field profiler *)

Lemma bind_print {A} (l : line) (m : printing A) :
  (print l;; m) = (l :: m.1, m.2).
Proof. done. Qed.

Lemma bind_eval_Ok {A B} (a : A) (k : A → printing B) :
  (x ← eval (Ok a); k x) = k a.
Proof. unfold eval, mbind, printing_bind. simpl. by destruct (k a). Qed.

Lemma bind_eval_Raise {A B} (e : exn) (k : A → printing B) :
  (x ← eval (Raise e); k x) = ([], Raise e).
Proof. done. Qed.

Lemma for_each_print {A B} (g : A → B → line) (l : list (A * B)) :
  for_each (λ '(a, b), print (g a b)) l = ((λ '(a, b), g a b) <$> l, Ok ()).
Proof.
  induction l as [|[a b] l IH]; [done|].
  cbn [for_each]. by rewrite bind_print, IH.
Qed.

Lemma elem_of_all_keys (values : list value) k :
  k ∈ Supabase.all_keys values ↔ ∃ d, VDict d ∈ values ∧ k ∈ keys d.
Proof.
  unfold Supabase.all_keys.
  enough (∀ acc : gset string,
    k ∈ foldl (λ all_keys value,
                 match value with
                 | VDict d => all_keys ∪ list_to_set (keys d)
                 | _ => all_keys
                 end) acc values
    ↔ k ∈ acc ∨ ∃ d, VDict d ∈ values ∧ k ∈ keys d) as ->.
  { split; [intros [[]%not_elem_of_empty|?]; done | by right]. }
  induction values as [|v values IH]; intros acc; simpl.
  - split; [by left | intros [?|(? & []%elem_of_nil & _)]; done].
  - rewrite IH. split.
    + intros [Hk|(d & ? & ?)].
      * destruct v as [s|l|d]; [by left..|].
        apply elem_of_union in Hk as [?|Hk]; [by left|].
        right. exists d. split; [left | by apply elem_of_list_to_set in Hk].
      * right. exists d. split; [by right | done].
    + intros [?|(d & [<-|?]%elem_of_cons & ?)].
      * left. destruct v; [done..|]. apply elem_of_union. by left.
      * left. apply elem_of_union. right. by apply elem_of_list_to_set.
      * right. by exists d.
Qed.

(** ** Slicing *)

Lemma string_length_app (s t : string) :
  String.length (s +:+ t) = (String.length s + String.length t)%nat.
Proof.
  induction s as [|a s IH]; [done|].
  change (S (String.length (s +:+ t)) = S (String.length s + String.length t)).
  by rewrite IH.
Qed.

Lemma str_take_prefix (n : nat) (s : string) :
  ∃ suf, s = str_take n s +:+ suf
         ∧ String.length (str_take n s) = n `min` String.length s.
Proof.
  unfold str_take. revert s. induction n as [|n IH]; intros s.
  - exists s. by destruct s.
  - destruct s as [|c s]; [by exists ""|].
    destruct (IH s) as (suf & Hs & Hlen). exists suf. simpl.
    split; [by rewrite Hs at 1 | by rewrite Hlen].
Qed.

(** ** Claims on the column profiler *)

Lemma sample_value_renders v : renders v (Supabase.sample_value v).
Proof.
  destruct v as [s|l|d]; simpl; [|constructor..].
  case_decide as Hlen; [|constructor; lia].
  destruct (str_take_prefix 50 (str s)) as (suf & Hs & Hpre).
  apply renders_long with suf; [done | lia |].
  intros ->. rewrite Hs in Hlen at 1.
  rewrite string_length_app in Hlen. simpl in Hlen. lia.
Qed.

Lemma populated_of_spec records col :
  (∃ r, r ∈ records ∧ col ∈ keys r) →
  populated_of records col
  = Some (length (filter (counts_as_populated col) records)).
Proof.
  intros Hcol%elem_of_all_columns.
  destruct (analyze_column_population_lookup _ _ Hcol) as (cs & Hcs & Hl).
  unfold populated_of. rewrite Hcs, Hl. simpl.
  unfold populated_values. by rewrite length_fmap.
Qed.

Lemma populated_of_single col v :
  populated_of [[(col, v)]] col
  = Some (if Supabase.is_populated v then 1 else 0)%nat.
Proof.
  rewrite populated_of_spec.
  2:{ exists [(col, v)]. split; left. }
  assert (dict_get col [(col, v)] = v) as Hget.
  { unfold dict_get. simpl. by rewrite decide_True. }
  destruct (Supabase.is_populated v) eqn:Hv.
  - rewrite filter_cons_True; [done|].
    apply counts_as_populated_iff. by rewrite Hget.
  - rewrite filter_cons_False; [done|].
    rewrite counts_as_populated_iff, Hget. congruence.
Qed.

(** C1: for every record sequence and every column in the union of the
    keys, the populated count that [analyze_column_population] reports is
    the number of records whose value for the column is present, non-null,
    not the empty string and not the empty array; a column holding [0],
    [0.0], [False] or [{}] is counted, one holding [None], [''] or [[]]
    is not. *)
Theorem populated_counts_exactly (records : list record) (col : string)
    (Hcol : ∃ r, r ∈ records ∧ col ∈ keys r) :
  populated_of records col
    = Some (length (filter (counts_as_populated col) records))
  ∧ (∀ v, v ∈ [VInt 0; VFloat (PyFloat false "0.0"); VBool false; VDict []] →
       populated_of [[(col, v)]] col = Some 1%nat)
  ∧ (∀ v, v ∈ [VNone; VStr ""; VList []] →
       populated_of [[(col, v)]] col = Some 0%nat).
Proof.
  split; [by apply populated_of_spec|].
  split; intros v Hv; rewrite populated_of_single;
    repeat (apply elem_of_cons in Hv as [->|Hv]; [done|]);
    by apply elem_of_nil in Hv.
Qed.

Lemma populated_counts_exactly_witness :
  (∃ r, r ∈ scenario_ab ∧ "b" ∈ keys r)
  ∧ (populated_of scenario_ab "b"
       = Some (length (filter (counts_as_populated "b") scenario_ab))
     ∧ (∀ v, v ∈ [VInt 0; VFloat (PyFloat false "0.0"); VBool false; VDict []] →
          populated_of [[("b", v)]] "b" = Some 1%nat)
     ∧ (∀ v, v ∈ [VNone; VStr ""; VList []] →
          populated_of [[("b", v)]] "b" = Some 0%nat)).
Proof.
  assert (∃ r, r ∈ scenario_ab ∧ "b" ∈ keys r) as Hcol.
  { exists [("a", VInt 1); ("b", VList [])].
    split; [apply list_elem_of_here|].
    apply list_elem_of_further, list_elem_of_here. }
  split; [exact Hcol|].
  exact (populated_counts_exactly scenario_ab "b" Hcol).
Defined.

Example populated_scenario_ab :
  populated_of scenario_ab "a" = Some 2%nat
  ∧ populated_of scenario_ab "b" = Some 1%nat.
Proof. split; vm_compute; reflexivity. Qed.

(** C2: on the empty record sequence [analyze_column_population] returns
    the empty mapping; and on no record sequence does it raise, so the
    division by [len(records)] is never a division by zero. *)
Theorem empty_records_empty_mapping :
  Supabase.analyze_column_population [] = Ok []
  ∧ ∀ records, ∃ column_stats,
      Supabase.analyze_column_population records = Ok column_stats.
Proof.
  split; [done|]. intros records. eexists.
  apply analyze_column_population_Ok.
Qed.

(** C4: the keys of the mapping that [analyze_column_population] returns
    are exactly the keys that occur in some record, and they stand in the
    mapping in strictly increasing lexicographic order. *)
Theorem column_universe_sorted (records : list record) :
  ∃ column_stats,
    Supabase.analyze_column_population records = Ok column_stats
    ∧ (∀ col, col ∈ keys column_stats ↔ ∃ r, r ∈ records ∧ col ∈ keys r)
    ∧ StronglySorted (strict String.le) (keys column_stats).
Proof.
  eexists. split; [apply analyze_column_population_Ok|].
  rewrite keys_fold_dict_set;
    [| apply NoDup_sorted | intros ? _ []%elem_of_nil].
  simpl. split; [|apply sorted_StronglySorted].
  intros col. by rewrite elem_of_sorted, elem_of_all_columns.
Qed.

(** C8: for every record sequence and every column, [sample_values] holds
    one entry for each of the first [min(3, populated)] populated values,
    in record order; a list or dict is rendered as its type name and item
    count, a scalar whose string is longer than 50 characters as its
    first 50 characters followed by ["..."], and a shorter one as its
    string. *)
Theorem sample_values_first_three (records : list record) (col : string)
    (Hcol : ∃ r, r ∈ records ∧ col ∈ keys r) :
  ∃ samples,
    samples_of records col = Some samples
    ∧ length samples
      = 3 `min` length (filter (counts_as_populated col) records)
    ∧ Forall2 renders
        (take 3 (dict_get col <$> filter (counts_as_populated col) records))
        samples.
Proof.
  apply elem_of_all_columns in Hcol.
  destruct (analyze_column_population_lookup _ _ Hcol) as (cs & Hcs & Hl).
  unfold samples_of. rewrite Hcs, Hl. simpl.
  eexists. split; [done|]. unfold populated_values. split.
  - by rewrite length_fmap, length_take, length_fmap.
  - apply Forall2_fmap_r, Forall_Forall2_diag, Forall_forall.
    intros v _. apply sample_value_renders.
Qed.

Lemma sample_values_first_three_witness :
  (∃ r, r ∈ scenario_ab ∧ "b" ∈ keys r)
  ∧ ∃ samples,
      samples_of scenario_ab "b" = Some samples
      ∧ length samples
        = 3 `min` length (filter (counts_as_populated "b") scenario_ab)
      ∧ Forall2 renders
          (take 3
             (dict_get "b" <$> filter (counts_as_populated "b") scenario_ab))
          samples.
Proof.
  assert (∃ r, r ∈ scenario_ab ∧ "b" ∈ keys r) as Hcol.
  { exists [("a", VInt 1); ("b", VList [])].
    split; [apply list_elem_of_here|].
    apply list_elem_of_further, list_elem_of_here. }
  split; [exact Hcol|].
  exact (sample_values_first_three scenario_ab "b" Hcol).
Defined.

Example samples_scenario_ab :
  samples_of scenario_ab "a" = Some ["1"; "2"]
  ∧ samples_of scenario_ab "b" = Some ["list with 1 items"].
Proof. split; vm_compute; reflexivity. Qed.

(** ** Claims on the nested-field profiler *)

Lemma truthy_iff v : truthy v ↔ Truthy v.
Proof.
  split.
  - destruct v as [[|[]|z|f|[|a s]]|[|x l]|[|x d]]; simpl; try done;
      intros Hv; constructor; try done.
    + intros ->. done.
    + by apply Is_true_true.
  - destruct 1 as [|z Hz|f Hf|s Hs|l Hl|d Hd]; simpl; try done.
    + by apply Is_true_true, negb_true_iff, Z.eqb_neq.
    + by apply Is_true_true.
    + by destruct s.
    + by destruct l.
    + by destruct d.
Qed.

Lemma included_iff field_name r :
  included field_name r ↔ truthy (dict_get field_name r).
Proof.
  unfold included, dict_get. rewrite truthy_iff.
  destruct (dict_lookup field_name r) as [v|]; simpl.
  - split; [by intros (? & [= <-] & ?) | by exists v].
  - split; [by intros (? & [=] & _) | inversion 1].
Qed.

Lemma included_lookup field_name r :
  included field_name r →
  dict_lookup field_name r = Some (dict_get field_name r).
Proof. unfold dict_get. by intros (v & -> & _). Qed.

Lemma field_values_app pre post field_name :
  Supabase.field_values (pre ++ post) field_name
  = Supabase.field_values pre field_name ++ Supabase.field_values post field_name.
Proof. unfold Supabase.field_values. by rewrite filter_app, fmap_app. Qed.

Lemma field_values_cons r records field_name :
  Supabase.field_values (r :: records) field_name
  = (if truthy (dict_get field_name r) then [dict_get field_name r] else [])
    ++ Supabase.field_values records field_name.
Proof.
  unfold Supabase.field_values.
  destruct (truthy (dict_get field_name r)) eqn:Hr.
  - rewrite filter_cons_True; [done | by apply Is_true_true].
  - rewrite filter_cons_False; [done | by apply Is_true_false].
Qed.

Lemma elem_of_field_values records field_name v :
  v ∈ Supabase.field_values records field_name
  ↔ ∃ r, r ∈ records ∧ dict_lookup field_name r = Some v ∧ Truthy v.
Proof.
  unfold Supabase.field_values.
  rewrite list_elem_of_fmap. setoid_rewrite list_elem_of_filter. split.
  - intros (r & -> & Hr & ?). exists r. split; [done|].
    apply included_iff in Hr as Hinc.
    split; [by apply included_lookup | by apply truthy_iff].
  - intros (r & ? & Hl & Hv). exists r.
    assert (dict_get field_name r = v) as Hget.
    { unfold dict_get. by rewrite Hl. }
    repeat split; [done | | done]. rewrite Hget. by apply truthy_iff.
Qed.

(** C7: a record's value enters the populated set of
    [analyze_jsonb_field] exactly when it is present and truthy, the
    populated set keeps the record order, and a field holding [{}], [0]
    or [False] is left out although [analyze_column_population] counts
    it. *)
Theorem field_values_truthy (records : list record) (field_name : string) :
  (∀ v, v ∈ Supabase.field_values records field_name
        ↔ ∃ r, r ∈ records ∧ dict_lookup field_name r = Some v ∧ Truthy v)
  ∧ (∀ pre r post, records = pre ++ r :: post →
       (included field_name r →
          Supabase.field_values records field_name
          = Supabase.field_values pre field_name
            ++ dict_get field_name r :: Supabase.field_values post field_name)
       ∧ (¬ included field_name r →
          Supabase.field_values records field_name
          = Supabase.field_values pre field_name
            ++ Supabase.field_values post field_name))
  ∧ (∀ v, v ∈ [VDict []; VInt 0; VBool false] →
       Supabase.field_values [[(field_name, v)]] field_name = []
       ∧ populated_of [[(field_name, v)]] field_name = Some 1%nat).
Proof.
  split; [intros v; apply elem_of_field_values|]. split.
  - intros pre r post ->.
    rewrite field_values_app, field_values_cons.
    split; intros Hr; rewrite included_iff in Hr.
    + by apply Is_true_true in Hr as ->.
    + by apply Is_true_false in Hr as ->.
  - intros v Hv. rewrite populated_of_single, field_values_cons.
    unfold dict_get. simpl. rewrite decide_True by done. simpl.
    repeat (apply elem_of_cons in Hv as [->|Hv]; [done|]).
    by apply elem_of_nil in Hv.
Qed.

Lemma sample_line_describes key val :
  describes key val (Supabase.sample_line key val).
Proof.
  destruct val as [s|l|d]; [|constructor..].
  destruct (str_take_prefix 50 (str s)) as (suf & Hs & Hlen).
  destruct s; simpl; first [by constructor | by econstructor].
Qed.

(** C5: when the first populated value of the field is an object,
    [analyze_jsonb_field] returns after printing the count, the sorted
    union of the keys of all populated objects, and one line for each
    item of the first populated object alone, with its runtime type and,
    for a [str], [int], [float] or [bool], the first 50 characters of its
    string. *)
Theorem object_shape_report (records : list record) (field_name : string)
    (d : list (string * value)) (rest : list value)
    (Hfirst : Supabase.field_values records field_name = VDict d :: rest) :
  ∃ all_keys sample,
    Supabase.analyze_jsonb_field records field_name
    = ([Found (S (length rest)) field_name; TypeObject; KeysFound all_keys;
        SampleStructure] ++ sample, Ok ())
    ∧ (∀ k, k ∈ all_keys
            ↔ ∃ d', VDict d' ∈ Supabase.field_values records field_name
                    ∧ k ∈ keys d')
    ∧ StronglySorted (strict String.le) all_keys
    ∧ Forall2 (λ item l, describes item.1 item.2 l) d sample.
Proof.
  exists (sorted (Supabase.all_keys (VDict d :: rest))),
         ((λ '(key, val), Supabase.sample_line key val) <$> d).
  split; [|split; [|split]].
  - unfold Supabase.analyze_jsonb_field. rewrite Hfirst.
    rewrite !bind_print. cbn [py_items]. rewrite bind_eval_Ok.
    by rewrite for_each_print.
  - intros k. by rewrite Hfirst, elem_of_sorted, elem_of_all_keys.
  - apply sorted_StronglySorted.
  - apply Forall2_fmap_r, Forall_Forall2_diag, Forall_forall.
    intros [key val] _. apply sample_line_describes.
Qed.

Lemma object_shape_report_witness :
  Supabase.field_values scenario_c "c"
    = VDict [("k1", VStr "v1")]
      :: [VDict [("k1", VStr "v1"); ("k2", VInt 2)]]
  ∧ ∃ all_keys sample,
      Supabase.analyze_jsonb_field scenario_c "c"
      = ([Found 2 "c"; TypeObject; KeysFound all_keys; SampleStructure]
         ++ sample, Ok ())
      ∧ (∀ k, k ∈ all_keys
              ↔ ∃ d', VDict d' ∈ Supabase.field_values scenario_c "c"
                      ∧ k ∈ keys d')
      ∧ StronglySorted (strict String.le) all_keys
      ∧ Forall2 (λ item l, describes item.1 item.2 l)
          [("k1", VStr "v1")] sample.
Proof.
  split; [reflexivity|].
  exact (object_shape_report scenario_c "c" _ _ eq_refl).
Defined.

Example object_scenario_c :
  Supabase.analyze_jsonb_field scenario_c "c"
  = ([Found 2 "c"; TypeObject; KeysFound ["k1"; "k2"]; SampleStructure;
      KeyTypeValue "k1" "str" "v1"], Ok ()).
Proof. vm_compute. reflexivity. Qed.

Lemma filter_is_array_all (values : list value) :
  Forall (λ v, is_array v) values → filter (λ v, is_array v) values = values.
Proof.
  induction 1 as [|v values Hv _ IH]; [done|].
  by rewrite filter_cons_True, IH.
Qed.

Lemma mapM_py_len_arrays (values : list value) :
  Forall (λ v, is_array v) values →
  ∃ lens, mapM py_len values = Ok lens ∧ Forall2 array_length values lens.
Proof.
  induction 1 as [|v values Hv _ (lens & Hlens & IH)].
  - exists []. split; [done | constructor].
  - destruct v as [s|a|d]; [done| |done].
    exists (length a :: lens). split.
    + cbn. by rewrite Hlens.
    + constructor; [by exists a | done].
Qed.

Lemma sample_item_structure_object e l rest :
  Supabase.sample_item_structure (VList (VDict e :: l) :: rest)
  = (SampleItemStructure :: ((λ '(key, val), KeyType key (type_name val)) <$> e),
     Ok ()).
Proof.
  cbn [Supabase.sample_item_structure truthy py_len].
  rewrite (bind_eval_Ok (length (VDict e :: l))).
  rewrite bool_decide_true by (simpl; lia).
  change (mret true) with (eval (Ok true)). rewrite bind_eval_Ok.
  rewrite bind_print. cbn [py_index0]. rewrite bind_eval_Ok.
  cbn [py_items]. rewrite bind_eval_Ok.
  by rewrite for_each_print.
Qed.

Lemma populated_array_nonempty records field_name a :
  VList a ∈ Supabase.field_values records field_name → a ≠ [].
Proof.
  intros (r & _ & _ & Ha)%elem_of_field_values. by inversion Ha.
Qed.

Lemma take_filter_is_array (values : list value) :
  Forall (λ v, is_array v) (take 5 values) →
  take 5 (filter (λ v, is_array v) values) = take 5 values.
Proof.
  intros Hall. rewrite <-(take_drop 5 values) at 1.
  rewrite filter_app, (filter_is_array_all _ Hall).
  destruct (decide (5 ≤ length values)%nat) as [Hlen|Hlen].
  - rewrite take_app_le by (rewrite length_take; lia). apply take_take.
  - rewrite drop_ge by lia. rewrite filter_nil, app_nil_r. apply take_take.
Qed.

(** C6, as the code has it: when the first five populated values of the
    field (all of them, if fewer) are arrays and the first element of
    the first populated array is an object, [analyze_jsonb_field]
    returns after printing the count of populated values, the lengths of
    the first [min(5, n)] of the [n] populated arrays in record order,
    and the key and type of each item of that first element, and nothing
    of any later array; a populated array always has an element. *)
Theorem array_shape_report (records : list record) (field_name : string)
    (e : list (string * value)) (l rest : list value)
    (Hfirst : Supabase.field_values records field_name
              = VList (VDict e :: l) :: rest)
    (Harrays : Forall (λ v, is_array v)
                 (take 5 (Supabase.field_values records field_name))) :
  ∃ lens,
    Supabase.analyze_jsonb_field records field_name
    = ([Found (S (length rest)) field_name;
        TypeArray; ArrayLengths lens; SampleItemStructure]
       ++ ((λ '(key, val), KeyType key (type_name val)) <$> e), Ok ())
    ∧ length lens = 5 `min` length (populated_arrays records field_name)
    ∧ Forall2 array_length (take 5 (populated_arrays records field_name)) lens
    ∧ (∀ a, VList a ∈ populated_arrays records field_name → a ≠ []).
Proof.
  destruct (mapM_py_len_arrays
              (take 5 (Supabase.field_values records field_name)))
    as (lens & Hlens & Hall); [done|].
  pose proof (take_filter_is_array _ Harrays) as Htake.
  fold (populated_arrays records field_name) in Htake.
  exists lens. split; [|split; [|split]].
  - unfold Supabase.analyze_jsonb_field. rewrite Hlens, Hfirst.
    rewrite !bind_print, bind_eval_Ok, bind_print.
    by rewrite sample_item_structure_object.
  - apply Forall2_length in Hall. by rewrite <-Hall, <-Htake, length_take.
  - by rewrite Htake.
  - intros a [_ Ha]%list_elem_of_filter.
    by apply populated_array_nonempty in Ha.
Qed.

Lemma array_shape_report_witness :
  Supabase.field_values scenario_six_arrays_then_string "f"
    = VList (VDict [("x", VInt 1)] :: [])
      :: (replicate 5 (VList [VDict [("x", VInt 1)]]) ++ [VStr "ab"])
  ∧ Forall (λ v, is_array v)
      (take 5 (Supabase.field_values scenario_six_arrays_then_string "f"))
  ∧ ∃ lens,
      Supabase.analyze_jsonb_field scenario_six_arrays_then_string "f"
      = ([Found
            (S (length (replicate 5 (VList [VDict [("x", VInt 1)]])
                        ++ [VStr "ab"])))
            "f";
          TypeArray; ArrayLengths lens; SampleItemStructure]
         ++ ((λ '(key, val), KeyType key (type_name val))
               <$> [("x", VInt 1)]), Ok ())
      ∧ length lens
        = 5 `min` length (populated_arrays scenario_six_arrays_then_string "f")
      ∧ Forall2 array_length
          (take 5 (populated_arrays scenario_six_arrays_then_string "f")) lens
      ∧ (∀ a, VList a ∈ populated_arrays scenario_six_arrays_then_string "f" →
              a ≠ []).
Proof.
  assert (Forall (λ v, is_array v)
            (take 5 (Supabase.field_values scenario_six_arrays_then_string "f")))
    as Harrays by (repeat constructor).
  split; [reflexivity|]. split; [exact Harrays|].
  exact (array_shape_report scenario_six_arrays_then_string "f" _ _ _
           eq_refl Harrays).
Defined.

Example six_arrays_then_string_report :
  Supabase.analyze_jsonb_field scenario_six_arrays_then_string "f"
  = ([Found 7 "f"; TypeArray;
      ArrayLengths [1%nat; 1%nat; 1%nat; 1%nat; 1%nat];
      SampleItemStructure; KeyType "x" "int"], Ok ())
  ∧ length (populated_arrays scenario_six_arrays_then_string "f") = 6%nat.
Proof. split; vm_compute; reflexivity. Qed.

(** C6 as stated fails: on [[{"f": [1]}]] the first populated value is
    an array with an element, yet no layout is reported and the call ends
    in an [AttributeError]; on [[{"f": [{"x": 1}]}, {"f": "ab"}]] two
    lengths are reported although one populated value is an array. *)
Lemma array_shape_counterexample :
  (Supabase.field_values scenario_array_of_numbers "f" = [VList [VInt 1]]
   ∧ Supabase.analyze_jsonb_field scenario_array_of_numbers "f"
     = ([Found 1 "f"; TypeArray; ArrayLengths [1%nat]; SampleItemStructure],
        Raise AttributeError))
  ∧ (Supabase.analyze_jsonb_field scenario_array_then_string "f"
     = ([Found 2 "f"; TypeArray; ArrayLengths [1%nat; 2%nat];
         SampleItemStructure; KeyType "x" "int"], Ok ())
     ∧ length (populated_arrays scenario_array_then_string "f") = 1%nat).
Proof. repeat split; vm_compute; reflexivity. Qed.

(** C3, as the code has it: on the first scenario the empty array of the
    first record is not populated, so profiling ["b"] reports one
    populated field, the lengths [[1]], and the element shape [x: int]. *)
Theorem scenario_ab_report :
  Supabase.field_values scenario_ab "b" = [VList [VDict [("x", VInt 1)]]]
  ∧ Supabase.analyze_jsonb_field scenario_ab "b"
    = ([Found 1 "b"; TypeArray; ArrayLengths [1%nat]; SampleItemStructure;
        KeyType "x" "int"], Ok ()).
Proof. split; vm_compute; reflexivity. Qed.

(** C3 as stated fails: the lengths printed are [[1]], not [[0, 1]]. *)
Lemma scenario_ab_counterexample :
  reported_lengths (Supabase.analyze_jsonb_field scenario_ab "b").1
    = Some [1%nat]
  ∧ reported_lengths (Supabase.analyze_jsonb_field scenario_ab "b").1
    ≠ Some [0%nat; 1%nat].
Proof. split; [vm_compute; reflexivity | vm_compute; discriminate]. Qed.

(** A scalar field matches neither branch and is passed over in
    silence. *)
Lemma scalar_field_skipped (s : scalar) rest records field_name :
  Supabase.field_values records field_name = VScalar s :: rest →
  Supabase.analyze_jsonb_field records field_name
  = ([Found (S (length rest)) field_name], Ok ()).
Proof.
  intros Hfirst. unfold Supabase.analyze_jsonb_field. by rewrite Hfirst.
Qed.

(** C9 does not hold of the code: on an array of strings
    [analyze_jsonb_field] prints the heading of the sample structure and
    then ends in an [AttributeError]. *)
Theorem array_of_strings_raises :
  Supabase.analyze_jsonb_field scenario_array_of_strings "locations"
  = ([Found 1 "locations"; TypeArray; ArrayLengths [1%nat];
      SampleItemStructure], Raise AttributeError).
Proof. vm_compute. reflexivity. Qed.

(** C10: the two scripts define the same two functions. *)
Theorem scripts_agree (records : list record) (field_name : string) :
  Supabase.analyze_column_population records
    = Psycopg.analyze_column_population records
  ∧ Supabase.analyze_jsonb_field records field_name
    = Psycopg.analyze_jsonb_field records field_name.
Proof. split; reflexivity. Qed.

(** * Further properties of the two profilers *)

(** The statistic reported for a column. *)
Definition column_stat_reported (records : list record) (col : string)
    : option column_stat :=
  match Supabase.analyze_column_population records with
  | Ok column_stats => dict_lookup col column_stats
  | Raise _ => None
  end.

(** A value that [analyze_column_population] counts and that
    [analyze_jsonb_field] leaves out: [False], [0], [0.0] or [{}]. *)
Definition counted_but_falsy (v : value) : bool :=
  match v with
  | VBool false | VInt 0 | VDict [] => true
  | VFloat f => negb (float_nonzero f)
  | _ => false
  end.

(** Two record sequences whose records hold the same items, each record
    possibly in another key order. *)
Definition same_items (records records' : list record) : Prop :=
  Forall2 (λ r r', NoDup (keys r) ∧ r ≡ₚ r') records records'.

Lemma column_stat_reported_Some records col st :
  column_stat_reported records col = Some st ↔
  (∃ r, r ∈ records ∧ col ∈ keys r) ∧ st = column_stat_of records col.
Proof.
  unfold column_stat_reported. rewrite analyze_column_population_Ok.
  rewrite <-elem_of_all_columns, <-(elem_of_sorted col).
  destruct (decide (col ∈ sorted (Supabase.all_columns records))) as [Hin|Hin].
  - rewrite lookup_fold_dict_set by (apply NoDup_sorted || done).
    split; [by intros [= <-] | by intros [_ ->]].
  - rewrite lookup_fold_dict_set_notin by done. simpl.
    split; [done | by intros [? _]].
Qed.

Lemma column_stat_reported_universe records col :
  (∃ r, r ∈ records ∧ col ∈ keys r) →
  column_stat_reported records col = Some (column_stat_of records col).
Proof. intros Hcol. by apply column_stat_reported_Some. Qed.

Lemma populated_values_length col records :
  (length (populated_values col records) ≤ length records)%nat.
Proof.
  unfold populated_values. rewrite length_fmap. apply length_filter.
Qed.

Lemma percentage_bounds (p n : nat) :
  (p ≤ n)%nat → (0 < n)%nat →
  let q := (inject_Z (Z.of_nat p) / inject_Z (Z.of_nat n) * 100)%Q in
  (0 <= q)%Q ∧ (q <= 100)%Q ∧ ((q == 100)%Q ↔ p = n) ∧ ((q == 0)%Q ↔ p = 0%nat).
Proof.
  intros Hp Hn. destruct n as [|n]; [lia|].
  unfold Qle, Qeq, Qdiv, Qmult, Qinv, inject_Z. simpl.
  repeat split; intros; lia.
Qed.

(** X1: every reported column has [total = len(records)], a populated
    count of at most [total], and a percentage between 0 and 100, which
    is 100 exactly when every record counts and 0 exactly when none
    does. *)
Theorem column_stat_bounds (records : list record) (col : string)
    (Hcol : ∃ r, r ∈ records ∧ col ∈ keys r) :
  ∃ st,
    column_stat_reported records col = Some st
    ∧ total st = length records
    ∧ (populated st ≤ total st)%nat
    ∧ (0 <= percentage st)%Q ∧ (percentage st <= 100)%Q
    ∧ ((percentage st == 100)%Q ↔ populated st = total st)
    ∧ ((percentage st == 0)%Q ↔ populated st = 0%nat).
Proof.
  exists (column_stat_of records col).
  split; [by apply column_stat_reported_universe|].
  split; [done|]. split; [apply populated_values_length|].
  assert (0 < length records)%nat as Hlen.
  { destruct Hcol as (r & Hr & _). destruct records; [|simpl; lia].
    by apply elem_of_nil in Hr. }
  pose proof (percentage_bounds _ _ (populated_values_length col records) Hlen)
    as (? & ? & ? & ?).
  done.
Qed.

Lemma column_stat_bounds_witness :
  (∃ r, r ∈ scenario_ab ∧ "b" ∈ keys r)
  ∧ ∃ st,
      column_stat_reported scenario_ab "b" = Some st
      ∧ total st = length scenario_ab
      ∧ (populated st ≤ total st)%nat
      ∧ (0 <= percentage st)%Q ∧ (percentage st <= 100)%Q
      ∧ ((percentage st == 100)%Q ↔ populated st = total st)
      ∧ ((percentage st == 0)%Q ↔ populated st = 0%nat).
Proof.
  assert (∃ r, r ∈ scenario_ab ∧ "b" ∈ keys r) as Hcol.
  { exists [("a", VInt 1); ("b", VList [])].
    split; [apply list_elem_of_here|].
    apply list_elem_of_further, list_elem_of_here. }
  split; [exact Hcol|].
  exact (column_stat_bounds scenario_ab "b" Hcol).
Defined.

(** X2: the type names recorded for a column are exactly those of its
    populated values; ['NoneType'] is never among them, and the set is
    empty (the type is reported as unknown) exactly when no value is
    populated. *)
Theorem column_types_observed (records : list record) (col : string)
    (Hcol : ∃ r, r ∈ records ∧ col ∈ keys r) :
  ∃ st,
    column_stat_reported records col = Some st
    ∧ (∀ t, t ∈ type st
            ↔ ∃ r, r ∈ records ∧ counts_as_populated col r
                   ∧ type_name (dict_get col r) = t)
    ∧ ("NoneType" ∉ type st)
    ∧ (type st = ∅ ↔ populated st = 0%nat).
Proof.
  exists (column_stat_of records col).
  split; [by apply column_stat_reported_universe|].
  assert (∀ t, t ∈ type (column_stat_of records col)
               ↔ ∃ r, r ∈ records ∧ counts_as_populated col r
                      ∧ type_name (dict_get col r) = t) as Htypes.
  { intros t. simpl. unfold populated_values.
    rewrite elem_of_list_to_set, list_elem_of_fmap.
    setoid_rewrite list_elem_of_fmap. setoid_rewrite list_elem_of_filter.
    split.
    - intros (v & -> & r & -> & ? & ?). by exists r.
    - intros (r & ? & ? & <-). eauto 10. }
  split; [done|]. split.
  - rewrite Htypes. intros (r & _ & Hr & Ht).
    apply counts_as_populated_iff, is_populated_iff in Hr as (Hnone & _).
    by destruct (dict_get col r) as [[]|?|?].
  - simpl. split.
    + intros Hempty. destruct (populated_values col records) as [|v vs] eqn:Hv;
        [done|]. exfalso. simpl in Hempty.
      apply (not_elem_of_empty (C:=gset string) (type_name v)).
      rewrite <-Hempty. apply elem_of_union. left. by apply elem_of_singleton.
    + intros Hlen. by apply nil_length_inv in Hlen as ->.
Qed.

Lemma column_types_observed_witness :
  (∃ r, r ∈ scenario_ab ∧ "b" ∈ keys r)
  ∧ ∃ st,
      column_stat_reported scenario_ab "b" = Some st
      ∧ (∀ t, t ∈ type st
              ↔ ∃ r, r ∈ scenario_ab ∧ counts_as_populated "b" r
                     ∧ type_name (dict_get "b" r) = t)
      ∧ ("NoneType" ∉ type st)
      ∧ (type st = ∅ ↔ populated st = 0%nat).
Proof.
  assert (∃ r, r ∈ scenario_ab ∧ "b" ∈ keys r) as Hcol.
  { exists [("a", VInt 1); ("b", VList [])].
    split; [apply list_elem_of_here|].
    apply list_elem_of_further, list_elem_of_here. }
  split; [exact Hcol|].
  exact (column_types_observed scenario_ab "b" Hcol).
Defined.

Lemma dict_lookup_None {V} (k : string) (d : dict V) :
  dict_lookup k d = None ↔ k ∉ keys d.
Proof.
  rewrite <-dict_lookup_is_Some, <-not_eq_None_Some. split; [auto|].
  intros Hn. by destruct (dict_lookup k d); [destruct Hn|].
Qed.

Lemma dict_lookup_NoDup {V} (k : string) (v : V) (d : dict V) :
  NoDup (keys d) → dict_lookup k d = Some v ↔ (k, v) ∈ d.
Proof.
  induction d as [|[k' v'] d IH]; simpl; intros Hnd.
  - split; [done | by intros ?%elem_of_nil].
  - apply NoDup_cons in Hnd as [Hk' Hnd]. rewrite elem_of_cons.
    case_decide as Hk; subst.
    + split; [intros [= ->]; by left|].
      intros [[= ->]|Hin]; [done|]. destruct Hk'.
      apply list_elem_of_fmap. by exists (k', v).
    + rewrite IH by done. split; [by right|].
      by intros [[= ? ?]|?].
Qed.

Lemma dict_lookup_Permutation {V} (k : string) (d d' : dict V) :
  NoDup (keys d) → d ≡ₚ d' → dict_lookup k d = dict_lookup k d'.
Proof.
  intros Hnd Hperm.
  assert (NoDup (keys d')) as Hnd' by (unfold keys; by rewrite <-Hperm).
  destruct (dict_lookup k d') as [v|] eqn:Hd'.
  - apply dict_lookup_NoDup; [done|]. rewrite Hperm.
    by apply dict_lookup_NoDup.
  - apply dict_lookup_None. apply dict_lookup_None in Hd'.
    unfold keys in *. by rewrite Hperm.
Qed.

Lemma populated_values_cons col r records :
  populated_values col (r :: records)
  = (if Supabase.is_populated (dict_get col r) then [dict_get col r] else [])
    ++ populated_values col records.
Proof.
  unfold populated_values.
  destruct (Supabase.is_populated (dict_get col r)) eqn:Hr.
  - rewrite filter_cons_True; [done | by apply counts_as_populated_iff].
  - rewrite filter_cons_False; [done|].
    rewrite counts_as_populated_iff. congruence.
Qed.

Lemma same_items_get records records' col :
  same_items records records' →
  dict_get col <$> records = dict_get col <$> records'.
Proof.
  induction 1 as [|r r' records records' [Hnd Hperm] _ IH]; [done|].
  csimpl. f_equal; [|done].
  unfold dict_get. by rewrite (dict_lookup_Permutation col r r').
Qed.

Lemma same_items_populated_values records records' col :
  same_items records records' →
  populated_values col records = populated_values col records'.
Proof.
  intros Hsame. pose proof (same_items_get _ _ col Hsame) as Hget.
  induction Hsame as [|r r' records records' _ _ IH]; [done|].
  rewrite !populated_values_cons. rewrite !fmap_cons in Hget.
  injection Hget as Hr Hrest. by rewrite Hr, IH.
Qed.

Lemma same_items_all_columns records records' :
  same_items records records' →
  Supabase.all_columns records = Supabase.all_columns records'.
Proof.
  intros Hsame. apply set_eq. intros k. rewrite !elem_of_all_columns.
  induction Hsame as [|r r' records records' [_ Hperm] _ IH].
  - split; intros (? & []%elem_of_nil & _).
  - assert (k ∈ keys r ↔ k ∈ keys r') as Hk.
    { unfold keys. by rewrite Hperm. }
    split; intros (x & [->|Hx]%elem_of_cons & Hkx).
    + exists r'. split; [left | by apply Hk].
    + destruct (proj1 IH) as (x' & ? & ?); [by exists x|].
      exists x'. split; [by right | done].
    + exists r. split; [left | by apply Hk].
    + destruct (proj2 IH) as (x' & ? & ?); [by exists x|].
      exists x'. split; [by right | done].
Qed.

Lemma foldl_ext_eq {A B} (f g : A → B → A) (a : A) (l : list B) :
  (∀ a b, f a b = g a b) → foldl f a l = foldl g a l.
Proof.
  intros Hfg. revert a. induction l as [|b l IH]; intros a; [done|].
  simpl. by rewrite Hfg, IH.
Qed.

(** The records [[{"b": [], "a": 1}, {"b": [{"x": 1}], "a": 2}]]: the
    first scenario with the keys of each record in the other order. *)
Definition scenario_ba : list record :=
  [ [("b", VList []); ("a", VInt 1)];
    [("b", VList [VDict [("x", VInt 1)]]); ("a", VInt 2)] ].

Lemma field_values_of_get records field_name :
  Supabase.field_values records field_name
  = filter (λ v, truthy v) (dict_get field_name <$> records).
Proof.
  induction records as [|r records IH]; [done|].
  rewrite field_values_cons, IH, fmap_cons.
  destruct (truthy (dict_get field_name r)) eqn:Hr.
  - rewrite filter_cons_True; [done | by apply Is_true_true].
  - rewrite filter_cons_False; [done | by apply Is_true_false].
Qed.

(** X3: what the two profilers report does not depend on the order in
    which each record lists its keys. *)
Theorem profilers_key_order (records records' : list record)
    (field_name : string) (Hsame : same_items records records') :
  Supabase.analyze_column_population records
  = Supabase.analyze_column_population records'
  ∧ Supabase.analyze_jsonb_field records field_name
    = Supabase.analyze_jsonb_field records' field_name.
Proof.
  split.
  - rewrite !analyze_column_population_Ok.
    rewrite (same_items_all_columns _ _ Hsame). f_equal.
    apply foldl_ext_eq. intros acc col.
    unfold column_stat_of.
    rewrite (same_items_populated_values _ _ col Hsame).
    assert (length records = length records') as ->; [|done].
    by eapply Forall2_length.
  - unfold Supabase.analyze_jsonb_field.
    by rewrite !field_values_of_get, (same_items_get _ _ field_name Hsame).
Qed.

Lemma profilers_key_order_witness :
  same_items scenario_ab scenario_ba
  ∧ Supabase.analyze_column_population scenario_ab
    = Supabase.analyze_column_population scenario_ba
  ∧ Supabase.analyze_jsonb_field scenario_ab "b"
    = Supabase.analyze_jsonb_field scenario_ba "b".
Proof.
  assert (same_items scenario_ab scenario_ba) as Hsame.
  { repeat constructor; try (by apply Permutation_swap);
      rewrite ?elem_of_cons, ?elem_of_nil; intros H;
      repeat destruct H as [H|H]; done. }
  split; [exact Hsame|].
  exact (profilers_key_order scenario_ab scenario_ba "b" Hsame).
Defined.

(** A value that [len] accepts: a string, a list or a dict. *)
Definition sized (v : value) : bool :=
  match v with
  | VStr _ | VList _ | VDict _ => true
  | _ => false
  end.

(** [len(v)] of a sized value. *)
Definition size (v : value) : nat :=
  match v with
  | VStr s => String.length s
  | VList l => length l
  | VDict d => length d
  | _ => 0
  end.

(** The count that the first line of an output reports. *)
Definition found_count (out : list line) : option nat :=
  match out with
  | Found n _ :: _ => Some n
  | NoPopulated _ :: _ => Some 0%nat
  | _ => None
  end.

Global Instance included_dec field_name r : Decision (included field_name r).
Proof.
  refine (cast_if (decide (truthy (dict_get field_name r))));
    by rewrite included_iff.
Defined.

Lemma field_values_filter records field_name :
  Supabase.field_values records field_name
  = dict_get field_name <$> filter (included field_name) records.
Proof.
  unfold Supabase.field_values. f_equal.
  apply list_filter_iff. intros r. by rewrite included_iff.
Qed.

Lemma field_values_nil records field_name :
  Supabase.field_values records field_name = []
  ↔ ∀ r, r ∈ records → ¬ included field_name r.
Proof.
  split.
  - intros Hnil r Hr Hinc.
    assert (dict_get field_name r ∈ Supabase.field_values records field_name)
      as Hin; [|rewrite Hnil in Hin; by apply elem_of_nil in Hin].
    apply elem_of_field_values. exists r. split; [done|].
    split; [by apply included_lookup|].
    by apply truthy_iff, included_iff.
  - intros Hnone.
    destruct (Supabase.field_values records field_name) as [|v vs] eqn:Hv;
      [done|]. exfalso.
    assert (v ∈ Supabase.field_values records field_name) as Hin
      by (rewrite Hv; left).
    apply elem_of_field_values in Hin as (r & Hr & Hl & Ht).
    apply (Hnone r Hr). by exists v.
Qed.

Lemma mapM_py_len_sized (values : list value) :
  Forall (λ v, sized v) values → mapM py_len values = Ok (size <$> values).
Proof.
  induction 1 as [|v values Hv _ IH]; [done|].
  destruct v as [[]|a|d]; try done; cbn; by rewrite IH.
Qed.

Lemma mapM_py_len_unsized (values : list value) :
  Exists (λ v, ¬ sized v) values → mapM py_len values = Raise TypeError.
Proof.
  induction 1 as [v values Hv|v values _ IH].
  - by destruct v as [[]|a|d]; try done; destruct Hv.
  - destruct v as [[]|a|d]; try done; cbn; by rewrite IH.
Qed.

Lemma sample_item_structure_first x l rest :
  Supabase.sample_item_structure (VList (x :: l) :: rest)
  = match x with
    | VDict e =>
        (SampleItemStructure
         :: ((λ '(key, val), KeyType key (type_name val)) <$> e), Ok ())
    | _ => ([SampleItemStructure], Raise AttributeError)
    end.
Proof.
  destruct x as [s|a|e]; [| |apply sample_item_structure_object];
    cbn [Supabase.sample_item_structure truthy py_len];
    rewrite (bind_eval_Ok (length (_ :: l)));
    rewrite bool_decide_true by (simpl; lia);
    change (mret true) with (eval (Ok true)); rewrite bind_eval_Ok;
    rewrite bind_print; cbn [py_index0]; rewrite bind_eval_Ok; done.
Qed.

Lemma array_branch_TypeError records field_name a rest :
  Supabase.field_values records field_name = VList a :: rest →
  Exists (λ v, ¬ sized v) (take 5 (VList a :: rest)) →
  Supabase.analyze_jsonb_field records field_name
  = ([Found (S (length rest)) field_name; TypeArray], Raise TypeError).
Proof.
  intros Hfirst Hex. unfold Supabase.analyze_jsonb_field.
  rewrite Hfirst, (mapM_py_len_unsized _ Hex). done.
Qed.

Lemma array_branch_sized records field_name x l rest :
  Supabase.field_values records field_name = VList (x :: l) :: rest →
  Forall (λ v, sized v) (take 5 (VList (x :: l) :: rest)) →
  Supabase.analyze_jsonb_field records field_name
  = ([Found (S (length rest)) field_name; TypeArray;
      ArrayLengths (size <$> take 5 (VList (x :: l) :: rest))]
     ++ (Supabase.sample_item_structure (VList (x :: l) :: rest)).1,
     (Supabase.sample_item_structure (VList (x :: l) :: rest)).2).
Proof.
  intros Hfirst Hall. unfold Supabase.analyze_jsonb_field.
  rewrite Hfirst, (mapM_py_len_sized _ Hall).
  by rewrite !bind_print, bind_eval_Ok, bind_print.
Qed.

Lemma object_branch_output records field_name d rest :
  Supabase.field_values records field_name = VDict d :: rest →
  Supabase.analyze_jsonb_field records field_name
  = ([Found (S (length rest)) field_name; TypeObject;
      KeysFound (sorted (Supabase.all_keys (VDict d :: rest)));
      SampleStructure]
     ++ ((λ '(key, val), Supabase.sample_line key val) <$> d), Ok ()).
Proof.
  intros Hfirst. unfold Supabase.analyze_jsonb_field. rewrite Hfirst.
  rewrite !bind_print. cbn [py_items]. rewrite bind_eval_Ok.
  by rewrite for_each_print.
Qed.

Lemma no_populated_output records field_name :
  Supabase.field_values records field_name = [] →
  Supabase.analyze_jsonb_field records field_name
  = ([NoPopulated field_name], Ok ()).
Proof.
  intros Hnil. unfold Supabase.analyze_jsonb_field. by rewrite Hnil.
Qed.

Lemma first_line_found records field_name v rest :
  Supabase.field_values records field_name = v :: rest →
  ∃ out, (Supabase.analyze_jsonb_field records field_name).1
         = Found (S (length rest)) field_name :: out.
Proof.
  intros Hfirst. unfold Supabase.analyze_jsonb_field. rewrite Hfirst.
  rewrite bind_print. by eexists.
Qed.

(** X6: when no record holds a truthy value for the field, as for an
    empty record sequence or a field that no record has,
    [analyze_jsonb_field] prints the one line that says so and returns;
    otherwise its first line gives the number of records that hold a
    truthy value. *)
Theorem no_populated_or_count (records : list record) (field_name : string) :
  ((∀ r, r ∈ records → ¬ included field_name r) →
     Supabase.analyze_jsonb_field records field_name
     = ([NoPopulated field_name], Ok ()))
  ∧ ((∃ r, r ∈ records ∧ included field_name r) →
     ∃ out,
       (Supabase.analyze_jsonb_field records field_name).1
       = Found (length (filter (included field_name) records)) field_name
         :: out
       ∧ (0 < length (filter (included field_name) records))%nat).
Proof.
  split.
  - intros Hnone. by apply no_populated_output, field_values_nil.
  - intros (r & Hr & Hinc).
    destruct (Supabase.field_values records field_name) as [|v rest] eqn:Hv.
    { by apply (proj1 (field_values_nil _ _) Hv r) in Hinc. }
    destruct (first_line_found _ _ _ _ Hv) as (out & Hout).
    assert (length (filter (included field_name) records) = S (length rest))
      as ->.
    { rewrite <-(length_fmap (dict_get field_name)), <-field_values_filter.
      by rewrite Hv. }
    exists out. split; [done | lia].
Qed.

(** X7: [analyze_jsonb_field] ends in an exception only in the array
    branch, that is when the first populated value is a list, and then
    only in a [TypeError] or an [AttributeError]. *)
Theorem raises_only_in_array_branch (records : list record)
    (field_name : string) (e : exn)
    (Hraise : (Supabase.analyze_jsonb_field records field_name).2 = Raise e) :
  (e = TypeError ∨ e = AttributeError)
  ∧ ∃ x l rest,
      Supabase.field_values records field_name = VList (x :: l) :: rest.
Proof.
  destruct (Supabase.field_values records field_name) as [|v rest] eqn:Hv.
  { by rewrite (no_populated_output _ _ Hv) in Hraise. }
  destruct v as [s|a|d].
  - by rewrite (scalar_field_skipped _ _ _ _ Hv) in Hraise.
  - destruct a as [|x l].
    { exfalso. apply (populated_array_nonempty records field_name []); [|done].
      rewrite Hv. left. }
    split; [|by eauto].
    destruct (decide (Forall (λ v, sized v) (take 5 (VList (x :: l) :: rest))))
      as [Hall|Hex].
    + rewrite (array_branch_sized _ _ _ _ _ Hv Hall) in Hraise.
      rewrite sample_item_structure_first in Hraise.
      destruct x as [?|?|?]; simpl in Hraise; [| |done];
        injection Hraise as <-; by right.
    + apply not_Forall_Exists in Hex; [|apply _].
      rewrite (array_branch_TypeError _ _ _ _ Hv Hex) in Hraise.
      injection Hraise as <-. by left.
  - by rewrite (object_branch_output _ _ _ _ Hv) in Hraise.
Qed.

Lemma raises_only_in_array_branch_witness :
  (Supabase.analyze_jsonb_field scenario_array_of_strings "locations").2
    = Raise AttributeError
  ∧ (AttributeError = TypeError ∨ AttributeError = AttributeError)
  ∧ ∃ x l rest,
      Supabase.field_values scenario_array_of_strings "locations"
      = VList (x :: l) :: rest.
Proof.
  split; [reflexivity|].
  exact (raises_only_in_array_branch
           scenario_array_of_strings "locations" AttributeError eq_refl).
Defined.

(** The records [[{"f": [{"x": 1}]}, {"f": 7}]]: a populated array
    followed by a populated number. *)
Definition scenario_array_then_number : list record :=
  [ [("f", VList [VDict [("x", VInt 1)]])]; [("f", VInt 7)] ].

(** X8: in the array branch, with [n] populated values of which the
    first is a list with first element [x]: if one of the first five
    populated values is a number or a bool, the call ends in a
    [TypeError] after the type line; otherwise the lengths line gives
    [len] of each of the first [min(5, n)] populated values, strings and
    dicts included, and the call returns with the keys and types of [x]
    when [x] is a dict, and ends in an [AttributeError] after the
    heading of the sample structure when it is not. *)
Theorem array_branch_outcomes (records : list record) (field_name : string)
    (x : value) (l rest : list value)
    (Hfirst : Supabase.field_values records field_name
              = VList (x :: l) :: rest) :
  (Exists (λ v, ¬ sized v) (take 5 (VList (x :: l) :: rest)) →
     Supabase.analyze_jsonb_field records field_name
     = ([Found (S (length rest)) field_name; TypeArray], Raise TypeError))
  ∧ (Forall (λ v, sized v) (take 5 (VList (x :: l) :: rest)) →
     (∀ e, x = VDict e →
        Supabase.analyze_jsonb_field records field_name
        = ([Found (S (length rest)) field_name; TypeArray;
            ArrayLengths (size <$> take 5 (VList (x :: l) :: rest));
            SampleItemStructure]
           ++ ((λ '(key, val), KeyType key (type_name val)) <$> e), Ok ()))
     ∧ ((∀ e, x ≠ VDict e) →
        Supabase.analyze_jsonb_field records field_name
        = ([Found (S (length rest)) field_name; TypeArray;
            ArrayLengths (size <$> take 5 (VList (x :: l) :: rest));
            SampleItemStructure], Raise AttributeError))).
Proof.
  split; [by apply array_branch_TypeError|].
  intros Hall. rewrite (array_branch_sized _ _ _ _ _ Hfirst Hall).
  rewrite sample_item_structure_first. split.
  - by intros e ->.
  - intros Hx. destruct x as [s|a|e]; [done..|]. by destruct (Hx e).
Qed.

Lemma array_branch_outcomes_witness :
  Supabase.field_values scenario_array_then_number "f"
    = VList (VDict [("x", VInt 1)] :: []) :: [VInt 7]
  ∧ (Exists (λ v, ¬ sized v)
       (take 5 (VList (VDict [("x", VInt 1)] :: []) :: [VInt 7])) →
     Supabase.analyze_jsonb_field scenario_array_then_number "f"
     = ([Found 2 "f"; TypeArray], Raise TypeError))
  ∧ (Forall (λ v, sized v)
       (take 5 (VList (VDict [("x", VInt 1)] :: []) :: [VInt 7])) →
     (∀ e, VDict [("x", VInt 1)] = VDict e →
        Supabase.analyze_jsonb_field scenario_array_then_number "f"
        = ([Found 2 "f"; TypeArray;
            ArrayLengths
              (size <$> take 5 (VList (VDict [("x", VInt 1)] :: []) :: [VInt 7]));
            SampleItemStructure]
           ++ ((λ '(key, val), KeyType key (type_name val)) <$> e), Ok ()))
     ∧ ((∀ e, VDict [("x", VInt 1)] ≠ VDict e) →
        Supabase.analyze_jsonb_field scenario_array_then_number "f"
        = ([Found 2 "f"; TypeArray;
            ArrayLengths
              (size <$> take 5 (VList (VDict [("x", VInt 1)] :: []) :: [VInt 7]));
            SampleItemStructure], Raise AttributeError))).
Proof.
  split; [reflexivity|].
  exact (array_branch_outcomes scenario_array_then_number "f" _ _ _ eq_refl).
Defined.

Example array_then_number_raises :
  Supabase.analyze_jsonb_field scenario_array_then_number "f"
  = ([Found 2 "f"; TypeArray], Raise TypeError).
Proof. vm_compute. reflexivity. Qed.

Lemma is_populated_split v :
  Supabase.is_populated v = truthy v || counted_but_falsy v
  ∧ (truthy v = true → counted_but_falsy v = false).
Proof.
  destruct v as [[|[]|[]|[[] ?]|[|a s]]|[|x l]|[|x d]]; by simpl.
Qed.

Lemma populated_split records col :
  length (populated_values col records)
  = (length (Supabase.field_values records col)
     + length (filter (λ r, counted_but_falsy (dict_get col r)) records))%nat.
Proof.
  induction records as [|r records IH]; [done|].
  rewrite populated_values_cons, field_values_cons, !length_app, IH.
  destruct (is_populated_split (dict_get col r)) as [-> Hexcl].
  destruct (truthy (dict_get col r)) eqn:Ht.
  - rewrite filter_cons_False; [simpl; lia|].
    rewrite (Hexcl eq_refl). by intros ?.
  - destruct (counted_but_falsy (dict_get col r)) eqn:Hc.
    + rewrite filter_cons_True by by rewrite Hc. simpl. lia.
    + rewrite filter_cons_False by (rewrite Hc; by intros ?). simpl. lia.
Qed.

(** X4: for a column of the records, the populated count of
    [analyze_column_population] is the count that [analyze_jsonb_field]
    prints for the same column plus the number of records that hold
    [False], [0], [0.0] or [{}] there; so the second count never exceeds
    the first. *)
Theorem populated_counts_compared (records : list record) (col : string)
    (Hcol : ∃ r, r ∈ records ∧ col ∈ keys r) :
  ∃ n,
    found_count (Supabase.analyze_jsonb_field records col).1 = Some n
    ∧ populated_of records col
      = Some (n + length (filter (λ r, counted_but_falsy (dict_get col r))
                            records))%nat.
Proof.
  exists (length (Supabase.field_values records col)). split.
  - destruct (Supabase.field_values records col) as [|v rest] eqn:Hv.
    + by rewrite (no_populated_output _ _ Hv).
    + destruct (first_line_found _ _ _ _ Hv) as (out & ->). done.
  - rewrite populated_of_spec by done. f_equal.
    rewrite <-populated_split. unfold populated_values.
    by rewrite length_fmap.
Qed.

Lemma populated_counts_compared_witness :
  (∃ r, r ∈ scenario_ab ∧ "b" ∈ keys r)
  ∧ ∃ n,
      found_count (Supabase.analyze_jsonb_field scenario_ab "b").1 = Some n
      ∧ populated_of scenario_ab "b"
        = Some (n + length (filter (λ r, counted_but_falsy (dict_get "b" r))
                              scenario_ab))%nat.
Proof.
  assert (∃ r, r ∈ scenario_ab ∧ "b" ∈ keys r) as Hcol.
  { exists [("a", VInt 1); ("b", VList [])].
    split; [apply list_elem_of_here|].
    apply list_elem_of_further, list_elem_of_here. }
  split; [exact Hcol|].
  exact (populated_counts_compared scenario_ab "b" Hcol).
Defined.

Lemma str_take_length n s : (String.length (str_take n s) ≤ n)%nat.
Proof. destruct (str_take_prefix n s) as (_ & _ & ->). lia. Qed.

Lemma sample_value_width v :
  (∃ n : nat,
     Supabase.sample_value v = "list with " +:+ pretty n +:+ " items")
  ∨ (∃ n : nat,
       Supabase.sample_value v = "dict with " +:+ pretty n +:+ " items")
  ∨ (String.length (Supabase.sample_value v) ≤ 53)%nat.
Proof.
  destruct v as [s|l|d]; [|left; by eexists|right; left; by eexists].
  right; right. simpl. case_decide; [|lia].
  rewrite string_length_app. pose proof (str_take_length 50 (str s)).
  simpl. lia.
Qed.

(** X5: every entry of a column's [sample_values] is the descriptor of a
    list or of a dict, or has at most 53 characters. *)
Theorem sample_values_width (records : list record) (col : string)
    (samples : list string) (s : string)
    (Hsamples : samples_of records col = Some samples)
    (Hs : s ∈ samples) :
  (∃ n : nat, s = "list with " +:+ pretty n +:+ " items")
  ∨ (∃ n : nat, s = "dict with " +:+ pretty n +:+ " items")
  ∨ (String.length s ≤ 53)%nat.
Proof.
  assert (samples_of records col
          = sample_values <$> column_stat_reported records col) as Hrep.
  { unfold samples_of, column_stat_reported.
    by destruct (Supabase.analyze_column_population records). }
  rewrite Hrep in Hsamples.
  apply fmap_Some in Hsamples as (st & Hst & ->).
  apply column_stat_reported_Some in Hst as [_ ->].
  simpl in Hs. apply list_elem_of_fmap in Hs as (v & -> & _).
  apply sample_value_width.
Qed.

Lemma sample_values_width_witness :
  samples_of scenario_ab "a" = Some ["1"; "2"]
  ∧ "1" ∈ ["1"; "2"]
  ∧ ((∃ n : nat, "1" = "list with " +:+ pretty n +:+ " items")
     ∨ (∃ n : nat, "1" = "dict with " +:+ pretty n +:+ " items")
     ∨ (String.length "1" ≤ 53)%nat).
Proof.
  assert (samples_of scenario_ab "a" = Some ["1"; "2"]) as Hsamples
    by (vm_compute; reflexivity).
  assert ("1" ∈ ["1"; "2"]) as Hs by apply list_elem_of_here.
  split; [exact Hsamples|]. split; [exact Hs|].
  exact (sample_values_width scenario_ab "a" _ _ Hsamples Hs).
Defined.

Lemma sample_line_value key val key' ty v :
  Supabase.sample_line key val = KeyTypeValue key' ty v →
  ∃ s : scalar, val = VScalar s ∧ s ≠ SNone ∧ key' = key
                ∧ ty = type_name val ∧ v = str_take 50 (str s).
Proof.
  destruct val as [[]|?|?]; simpl; intros [= <- <- <-]; by eexists.
Qed.

(** X9: [analyze_jsonb_field] prints a value only for an item of the
    first populated object that is a [str], an [int], a [float] or a
    [bool], never for [None], a list or a dict, and what it prints of the
    value is the first 50 characters of its string at most. *)
Theorem printed_values_width (records : list record) (field_name : string)
    (key val_type val : string)
    (Hline : KeyTypeValue key val_type val
             ∈ (Supabase.analyze_jsonb_field records field_name).1) :
  ∃ d rest (s : scalar),
    Supabase.field_values records field_name = VDict d :: rest
    ∧ (key, VScalar s) ∈ d
    ∧ s ≠ SNone
    ∧ val_type = type_name s
    ∧ val = str_take 50 (str s)
    ∧ (String.length val ≤ 50)%nat.
Proof.
  destruct (Supabase.field_values records field_name) as [|v rest] eqn:Hv.
  { rewrite (no_populated_output _ _ Hv) in Hline.
    by apply list_elem_of_singleton in Hline. }
  destruct v as [s|a|d].
  - rewrite (scalar_field_skipped _ _ _ _ Hv) in Hline.
    by apply list_elem_of_singleton in Hline.
  - exfalso. destruct a as [|x l].
    { apply (populated_array_nonempty records field_name []); [|done].
      rewrite Hv. left. }
    destruct (decide (Forall (λ v, sized v) (take 5 (VList (x :: l) :: rest))))
      as [Hall|Hex].
    + rewrite (array_branch_sized _ _ _ _ _ Hv Hall) in Hline.
      rewrite sample_item_structure_first in Hline.
      simpl in Hline.
      do 3 (apply elem_of_cons in Hline as [?|Hline]; [done|]).
      destruct x as [?|?|e]; simpl in Hline;
        apply elem_of_cons in Hline as [?|Hline]; try done.
      * by apply elem_of_nil in Hline.
      * by apply elem_of_nil in Hline.
      * apply list_elem_of_fmap in Hline as ([? ?] & ? & _). done.
    + apply not_Forall_Exists in Hex; [|apply _].
      rewrite (array_branch_TypeError _ _ _ _ Hv Hex) in Hline.
      simpl in Hline.
      do 2 (apply elem_of_cons in Hline as [?|Hline]; [done|]).
      by apply elem_of_nil in Hline.
  - rewrite (object_branch_output _ _ _ _ Hv) in Hline. simpl in Hline.
    do 4 (apply elem_of_cons in Hline as [?|Hline]; [done|]).
    apply list_elem_of_fmap in Hline as ([k v] & Hkv & Hin).
    symmetry in Hkv.
    apply sample_line_value in Hkv as (s & -> & Hs & -> & -> & ->).
    exists d, rest, s. repeat split; [done | done |]. apply str_take_length.
Qed.

Lemma printed_values_width_witness :
  KeyTypeValue "k1" "str" "v1"
    ∈ (Supabase.analyze_jsonb_field scenario_c "c").1
  ∧ ∃ d rest (s : scalar),
      Supabase.field_values scenario_c "c" = VDict d :: rest
      ∧ ("k1", VScalar s) ∈ d
      ∧ s ≠ SNone
      ∧ "str" = type_name s
      ∧ "v1" = str_take 50 (str s)
      ∧ (String.length "v1" ≤ 50)%nat.
Proof.
  assert (KeyTypeValue "k1" "str" "v1"
            ∈ (Supabase.analyze_jsonb_field scenario_c "c").1) as Hline.
  { vm_compute. do 4 apply list_elem_of_further. apply list_elem_of_here. }
  split; [exact Hline|].
  exact (printed_values_width scenario_c "c" _ _ _ Hline).
Defined.

(** * The reports of [analyze_clinical_trials] *)

(** A run of code that prints lines of type [L]: the lines written so
    far, and the value returned or the exception that ended it. *)
Definition emitting (L A : Type) : Type := list L * result A.

Global Instance emitting_ret {L} : MRet (emitting L) := λ A a, ([], Ok a).
Global Instance emitting_bind {L} : MBind (emitting L) := λ A B f m,
  match m.2 with
  | Ok a => (m.1 ++ (f a).1, (f a).2)
  | Raise e => (m.1, Raise e)
  end.

Definition emit {L} (l : L) : emitting L unit := ([l], Ok ()).

Definition compute {L A} (r : result A) : emitting L A := ([], r).

(** [for x in l: f(x)] *)
Fixpoint for_all {L A} (f : A → emitting L unit) (l : list A)
    : emitting L unit :=
  match l with
  | [] => mret ()
  | x :: l' => f x;; for_all f l'
  end.

(** The lines of the column population report. *)
Inductive report_line :=
| ColumnHeading (col : string)     (* "\n{col}:" *)
| PopulatedLine (populated total : nat) (percentage : Q)
    (* "  - Populated: {populated}/{total} ({percentage:.1f}%)" *)
| DataTypeLine (types : gset string)   (* "  - Data type: {type}" *)
| SampleValuesLine (samples : list string).
    (* "  - Sample values: {sample_values[:3]}" *)

(** The call of [analyze_column_population] on the sample and the loop
    that prints its result, in either script. *)
Definition column_report (data : list record) : emitting report_line unit :=
  column_stats ← compute (Supabase.analyze_column_population data);
  for_all (λ '(col, stats),
             emit (ColumnHeading col);;
             emit (PopulatedLine (populated stats) (total stats)
                     (percentage stats));;
             emit (DataTypeLine (type stats));;
             match sample_values stats with
             | [] => mret ()
             | _ => emit (SampleValuesLine (take 3 (sample_values stats)))
             end) column_stats.

(** What the report prints for one column: the statistic returned for
    it, and its samples when a value is populated. *)
Definition column_block (data : list record) (col : string)
    (lines : list report_line) : Prop :=
  ∃ st,
    column_stat_reported data col = Some st
    ∧ lines
      = [ColumnHeading col;
         PopulatedLine (populated st) (total st) (percentage st);
         DataTypeLine (type st)]
        ++ (if decide (populated st = 0%nat) then []
            else [SampleValuesLine (sample_values st)]).

Lemma emit_bind {L A} (l : L) (m : emitting L A) :
  (emit l;; m) = (l :: m.1, m.2).
Proof. done. Qed.

Lemma compute_bind_Ok {L A B} (a : A) (k : A → emitting L B) :
  (x ← compute (Ok a); k x) = k a.
Proof. unfold compute, mbind, emitting_bind. simpl. by destruct (k a). Qed.

Lemma for_all_blocks {L A} (f : A → emitting L unit) (g : A → list L)
    (l : list A) :
  (∀ x, x ∈ l → f x = (g x, Ok ())) →
  for_all f l = (mjoin (g <$> l), Ok ()).
Proof.
  induction l as [|x l IH]; intros Hf; [done|].
  cbn [for_all]. rewrite (Hf x) by left.
  rewrite IH by (intros; apply Hf; by right). done.
Qed.

(** The lines printed for the statistic of a column. *)
Definition stat_lines (col : string) (stats : column_stat)
    : list report_line :=
  [ColumnHeading col;
   PopulatedLine (populated stats) (total stats) (percentage stats);
   DataTypeLine (type stats)]
  ++ match sample_values stats with
     | [] => []
     | _ => [SampleValuesLine (take 3 (sample_values stats))]
     end.

Lemma dict_set_fresh {V} (k : string) (v : V) (d : dict V) :
  k ∉ keys d → dict_set k v d = d ++ [(k, v)].
Proof.
  induction d as [|[k' v'] d IH]; simpl; [done|].
  intros [? ?]%not_elem_of_cons. rewrite decide_False by done.
  by rewrite IH.
Qed.

Lemma fold_dict_set_fresh {V} (f : string → V) (cols : list string)
    (acc : dict V) :
  NoDup cols → (∀ c, c ∈ cols → c ∉ keys acc) →
  foldl (λ acc col, dict_set col (f col) acc) acc cols
  = acc ++ ((λ col, (col, f col)) <$> cols).
Proof.
  revert acc. induction cols as [|c cols IH]; intros acc Hnd Hfresh; simpl.
  - by rewrite app_nil_r.
  - apply NoDup_cons in Hnd as [Hc Hnd].
    rewrite dict_set_fresh by (apply Hfresh; left).
    rewrite IH; [by rewrite <-app_assoc | done |].
    intros c' Hc'. unfold keys. rewrite fmap_app, elem_of_app. simpl.
    intros [?| ->%list_elem_of_singleton]; [|done].
    by eapply Hfresh; [right|].
Qed.

Lemma column_report_lines data :
  column_report data
  = (mjoin ((λ col, stat_lines col (column_stat_of data col))
              <$> sorted (Supabase.all_columns data)), Ok ()).
Proof.
  unfold column_report. rewrite analyze_column_population_Ok.
  rewrite compute_bind_Ok.
  rewrite fold_dict_set_fresh;
    [| apply NoDup_sorted | intros ? _ []%elem_of_nil].
  rewrite app_nil_l.
  rewrite (for_all_blocks _ (λ '(col, stats), stat_lines col stats)).
  - f_equal. by rewrite <-list_fmap_compose.
  - intros [col stats] _. rewrite !emit_bind. unfold stat_lines.
    by destruct (sample_values stats).
Qed.

Lemma stat_lines_block data col :
  (∃ r, r ∈ data ∧ col ∈ keys r) →
  column_block data col (stat_lines col (column_stat_of data col)).
Proof.
  intros Hcol. exists (column_stat_of data col).
  split; [by apply column_stat_reported_universe|].
  unfold stat_lines. f_equal.
  change (sample_values (column_stat_of data col))
    with (Supabase.sample_value <$> take 3 (populated_values col data)).
  change (populated (column_stat_of data col))
    with (length (populated_values col data)).
  destruct (populated_values col data) as [|v vs] eqn:Hv; [done|].
  rewrite decide_False by done.
  change (take 3 (v :: vs)) with (v :: take 2 vs). rewrite fmap_cons.
  rewrite take_ge; [done|].
  simpl. rewrite length_fmap, length_take. lia.
Qed.

(** X10: the column population report never fails; it prints one block
    for each column of the sample, in lexicographic order of the columns:
    the heading, the counts with [total = len(data)] and the types, and
    then a line of samples exactly when the column has a populated value,
    which shows every sample kept for the column. *)
Theorem column_report_blocks (data : list record) :
  ∃ cols blocks,
    column_report data = (mjoin blocks, Ok ())
    ∧ (∀ col, col ∈ cols ↔ ∃ r, r ∈ data ∧ col ∈ keys r)
    ∧ StronglySorted (strict String.le) cols
    ∧ Forall2 (column_block data) cols blocks.
Proof.
  exists (sorted (Supabase.all_columns data)),
    ((λ col, stat_lines col (column_stat_of data col))
       <$> sorted (Supabase.all_columns data)).
  split; [apply column_report_lines|].
  assert (∀ col, col ∈ sorted (Supabase.all_columns data)
                 ↔ ∃ r, r ∈ data ∧ col ∈ keys r) as Hcols.
  { intros col. by rewrite elem_of_sorted, elem_of_all_columns. }
  split; [done|]. split; [apply sorted_StronglySorted|].
  apply Forall2_fmap_r, Forall_Forall2_diag, Forall_forall.
  intros col Hcol. by apply stat_lines_block, Hcols.
Qed.

Example column_report_scenario_ab :
  column_report scenario_ab
  = ([ColumnHeading "a"; PopulatedLine 2 2 (200 # 2); DataTypeLine {["int"]};
      SampleValuesLine ["1"; "2"];
      ColumnHeading "b"; PopulatedLine 1 2 (100 # 2); DataTypeLine {["list"]};
      SampleValuesLine ["list with 1 items"]], Ok ()).
Proof. vm_compute. reflexivity. Qed.

(** ** The status and phase distributions of [analyze_clinical_trials.py] *)

Global Instance exn_eq_dec : EqDecision exn.
Proof. solve_decision. Defined.

Global Instance result_eq_dec {A} `{!EqDecision A} : EqDecision (result A).
Proof. solve_decision. Defined.

(** [r.get(k, dflt)]: a key that is present gives its value, [None]
    included. *)
Definition dict_get_or (k : string) (dflt : value) (r : record) : value :=
  from_option id dflt (dict_lookup k r).

(** The lines of the two distributions. *)
Inductive dist_line :=
| StatusHeading                     (* "\nStatus distribution:" *)
| StatusLine (status : value) (count : nat) (percentage : Q)
    (* "  - {status}: {count} ({count/len(data)*100:.1f}%)" *)
| PhaseHeading                      (* "\nPhase distribution:" *)
| PhaseLine (phase : value) (count : nat).
    (* "  - {phase}: {count}" *)

(** [sorted(items, key=lambda x: x[1], reverse=True)]: the largest count
    first, items of equal count in their former order. *)
Fixpoint insert_desc (x : value * nat) (l : list (value * nat))
    : list (value * nat) :=
  match l with
  | [] => [x]
  | y :: l' => if decide (x.2 < y.2)%nat then y :: insert_desc x l'
               else x :: y :: l'
  end.

Fixpoint sorted_desc (l : list (value * nat)) : list (value * nat) :=
  match l with
  | [] => []
  | x :: l' => insert_desc x (sorted_desc l')
  end.

Section distributions.

(** The key under which a dict files a value: two values that the dict
    treats as the same key have the same [key_of]; a value that cannot
    be hashed raises [TypeError]. *)
Context {K : Type} `{!EqDecision K}.
Variable key_of : value → result K.

(** A dict from values to counts, in insertion order: the key, the value
    first stored as that key, and the count. *)
Definition tally : Type := list (K * (value * nat)).

(** [d.get(k, 0)] *)
Fixpoint tally_get (k : K) (d : tally) : nat :=
  match d with
  | [] => 0
  | (k', (_, n)) :: d' => if decide (k = k') then n else tally_get k d'
  end.

(** [d[v] = n]: a key that is present keeps its place and the value
    first stored. *)
Fixpoint tally_set (k : K) (v : value) (n : nat) (d : tally) : tally :=
  match d with
  | [] => [(k, (v, n))]
  | (k', (v', n')) :: d' =>
      if decide (k = k') then (k', (v', n)) :: d'
      else (k', (v', n')) :: tally_set k v n d'
  end.

(** [d.items()] *)
Definition items (d : tally) : list (value * nat) := snd <$> d.

(** The body of the counting loop:
    [x = record.get(field, dflt); counts[x] = counts.get(x, 0) + 1]. *)
Definition count_record (field : string) (dflt : value) (counts : tally)
    (record : record) : result tally :=
  let x := dict_get_or field dflt record in
  k ← key_of x;
  mret (tally_set k x (tally_get k counts + 1) counts).

Fixpoint count_records (field : string) (dflt : value) (data : list record)
    (counts : tally) : result tally :=
  match data with
  | [] => mret counts
  | record :: data' =>
      counts' ← count_record field dflt counts record;
      count_records field dflt data' counts'
  end.

(** The status distribution, from the rows of the status query. *)
Definition status_distribution (data : list record)
    : emitting dist_line unit :=
  emit StatusHeading;;
  match data with
  | [] => mret ()
  | _ =>
      status_counts ← compute (count_records "status" (VStr "unknown") data []);
      for_all (λ '(status, count),
                 q ← compute (py_div count (length data));
                 emit (StatusLine status count (q * 100)%Q))
              (sorted_desc (items status_counts))
  end.

(** The phase distribution, from the rows of the phase query. *)
Definition phase_distribution (data : list record)
    : emitting dist_line unit :=
  emit PhaseHeading;;
  match data with
  | [] => mret ()
  | _ =>
      phase_counts ←
        compute (count_records "phase" (VStr "Not specified") data []);
      for_all (λ '(phase, count), emit (PhaseLine phase count))
              (take 10 (sorted_desc (items phase_counts)))
  end.

End distributions.

(** The keys of the example rows below, whose values are [None] or
    strings; the theorems on the distributions hold for every [key_of]. *)
Definition text_key (v : value) : result (option string) :=
  match v with
  | VNone => Ok None
  | VStr s => Ok (Some s)
  | _ => Raise TypeError
  end.

(** The rows [[{"status": "open"}, {"status": None}, {"status": "open"},
    {}]]. *)
Definition scenario_status : list record :=
  [ [("status", VStr "open")]; [("status", VNone)];
    [("status", VStr "open")]; [] ].

Example status_distribution_scenario :
  status_distribution text_key scenario_status
  = ([StatusHeading; StatusLine (VStr "open") 2 (200 # 4);
      StatusLine VNone 1 (100 # 4); StatusLine (VStr "unknown") 1 (100 # 4)],
     Ok ()).
Proof. vm_compute. reflexivity. Qed.

(** The rows filed under the same key as the value [v]. *)
Definition rows_with {K} `{!EqDecision K} (key_of : value → result K)
    (field : string) (dflt : value) (data : list record) (v : value) : nat :=
  length (filter (λ r, key_of (dict_get_or field dflt r) = key_of v) data).

Lemma insert_desc_Permutation x l : insert_desc x l ≡ₚ x :: l.
Proof.
  induction l as [|y l IH]; simpl; [done|].
  case_decide; [|done]. by rewrite IH, Permutation_swap.
Qed.

Lemma sorted_desc_Permutation l : sorted_desc l ≡ₚ l.
Proof.
  induction l as [|x l IH]; simpl; [done|].
  by rewrite insert_desc_Permutation, IH.
Qed.

Lemma insert_desc_sorted x l :
  StronglySorted (λ e e' : value * nat, (e'.2 ≤ e.2)%nat) l →
  StronglySorted (λ e e' : value * nat, (e'.2 ≤ e.2)%nat) (insert_desc x l).
Proof.
  induction 1 as [|y l Hl IH Hy]; simpl; [by repeat constructor|].
  case_decide as Hxy.
  - constructor; [done|].
    rewrite insert_desc_Permutation. constructor; [lia | done].
  - constructor; [by constructor|].
    constructor; [lia|].
    eapply Forall_impl; [done|]. simpl. intros; lia.
Qed.

Lemma sorted_desc_sorted l :
  StronglySorted (λ e e' : value * nat, (e'.2 ≤ e.2)%nat) (sorted_desc l).
Proof.
  induction l as [|x l IH]; simpl; [constructor | by apply insert_desc_sorted].
Qed.

Lemma for_all_lines {L A} (f : A → emitting L unit) (g : A → L) (l : list A) :
  (∀ x, x ∈ l → f x = ([g x], Ok ())) →
  for_all f l = (g <$> l, Ok ()).
Proof.
  induction l as [|x l IH]; intros Hf; [done|].
  cbn [for_all]. rewrite (Hf x) by left.
  rewrite IH by (intros; apply Hf; by right). done.
Qed.

Section tally.
Context {K : Type} `{!EqDecision K}.
Implicit Types (k : K) (d : tally (K:=K)) (v : value) (n : nat).

Lemma tally_get_notin k d : k ∉ d.*1 → tally_get k d = 0%nat.
Proof.
  induction d as [|[k' [v' n']] d IH]; simpl; [done|].
  intros [? ?]%not_elem_of_cons. rewrite decide_False by done. auto.
Qed.

Lemma tally_get_elem k v n d :
  NoDup d.*1 → (k, (v, n)) ∈ d → tally_get k d = n.
Proof.
  induction d as [|[k' [v' n']] d IH]; simpl; intros Hnd Hin.
  - by apply elem_of_nil in Hin.
  - apply NoDup_cons in Hnd as [Hk' Hnd].
    apply elem_of_cons in Hin as [[= <- <- <-]|Hin].
    + by rewrite decide_True.
    + rewrite decide_False; [by apply IH|]. intros <-. apply Hk'.
      apply list_elem_of_fmap. by exists (k, (v, n)).
Qed.

Lemma tally_set_keys k v n d :
  (tally_set k v n d).*1 = if decide (k ∈ d.*1) then d.*1 else d.*1 ++ [k].
Proof.
  induction d as [|[k' [v' n']] d IH]; [done|].
  cbn [tally_set]. rewrite !fmap_cons. cbn [fst].
  destruct (decide (k = k')) as [->|Hne].
  - rewrite fmap_cons, decide_True; [done | left].
  - rewrite fmap_cons, IH. cbn [fst].
    destruct (decide (k ∈ d.*1)) as [Hin|Hnin].
    + rewrite decide_True; [done | by right].
    + rewrite decide_False; [done|]. by intros [?|?]%elem_of_cons.
Qed.

Lemma tally_set_NoDup k v n d : NoDup d.*1 → NoDup (tally_set k v n d).*1.
Proof.
  intros Hnd. rewrite tally_set_keys. case_decide; [done|].
  apply NoDup_app. split; [done|]. split; [|apply NoDup_singleton].
  by intros k' ? ->%list_elem_of_singleton.
Qed.

Lemma tally_set_elem k v n d k' v' n' :
  NoDup d.*1 →
  (k', (v', n')) ∈ tally_set k v n d →
  (k' = k ∧ n' = n ∧ (((k ∉ d.*1) ∧ v' = v) ∨ ∃ n0, (k, (v', n0)) ∈ d))
  ∨ (k' ≠ k ∧ (k', (v', n')) ∈ d).
Proof.
  induction d as [|[k0 [v0 n0]] d IH]; simpl; intros Hnd Hin.
  - apply list_elem_of_singleton in Hin as [= -> -> ->].
    left. repeat split. left. split; [by intros ?%elem_of_nil | done].
  - apply NoDup_cons in Hnd as [Hk0 Hnd].
    destruct (decide (k = k0)) as [->|Hne].
    + apply elem_of_cons in Hin as [[= -> -> ->]|Hin].
      * left. repeat split. right. exists n0. left.
      * right. split; [|by right]. intros ->. apply Hk0.
        apply list_elem_of_fmap. by exists (k0, (v', n')).
    + apply elem_of_cons in Hin as [[= -> -> ->]|Hin].
      * right. split; [done | left].
      * destruct (IH Hnd Hin) as [(-> & -> & [[? ->]|[m ?]])|[? ?]].
        -- left. repeat split. left. split; [|done].
           by intros [?|?]%elem_of_cons.
        -- left. repeat split. right. exists m. by right.
        -- right. split; [done | by right].
Qed.

Lemma tally_set_sum k v n d :
  (sum_list ((λ e, e.2.2) <$> tally_set k v n d) + tally_get k d
   = sum_list ((λ e, e.2.2) <$> d) + n)%nat.
Proof.
  induction d as [|[k' [v' n']] d IH]; [simpl; lia|].
  cbn [tally_set tally_get]. case_decide; rewrite !fmap_cons; simpl; lia.
Qed.

End tally.

(** [entries] is the distribution of a field over the rows: one entry
    for each distinct key among the rows' values, holding a value of that
    key and the number of rows of that key, the largest count first. *)
Definition distribution_of {K} `{!EqDecision K} (key_of : value → result K)
    (field : string) (dflt : value) (data : list record)
    (entries : list (value * nat)) : Prop :=
  (∀ e, e ∈ entries →
        e.2 = rows_with key_of field dflt data e.1 ∧ (1 ≤ e.2)%nat)
  ∧ (∀ r, r ∈ data →
          ∃ e, e ∈ entries ∧ key_of e.1 = key_of (dict_get_or field dflt r))
  ∧ NoDup ((λ e, key_of e.1) <$> entries)
  ∧ sum_list (snd <$> entries) = length data
  ∧ StronglySorted (λ e e' : value * nat, (e'.2 ≤ e.2)%nat) entries.

Section counting.
Context {K : Type} `{!EqDecision K}.
Variable key_of : value → result K.
Variables (field : string) (dflt : value).

(** The rows seen so far whose value has the key [k]. *)
Definition count_key (k : K) (seen : list record) : nat :=
  length (filter (λ r, key_of (dict_get_or field dflt r) = Ok k) seen).

(** The counts after the rows [seen]. *)
Definition tally_ok (seen : list record) (d : tally (K:=K)) : Prop :=
  NoDup d.*1
  ∧ (∀ k v n, (k, (v, n)) ∈ d →
       key_of v = Ok k ∧ n = count_key k seen ∧ (1 ≤ n)%nat)
  ∧ (∀ r, r ∈ seen →
       ∃ k, key_of (dict_get_or field dflt r) = Ok k ∧ k ∈ d.*1)
  ∧ sum_list ((λ e, e.2.2) <$> d) = length seen.

Lemma count_key_snoc k seen r :
  count_key k (seen ++ [r])
  = (count_key k seen
     + if decide (key_of (dict_get_or field dflt r) = Ok k) then 1 else 0)%nat.
Proof.
  unfold count_key. rewrite filter_app, length_app, filter_cons, filter_nil.
  by case_decide.
Qed.

Lemma tally_ok_get seen d k : tally_ok seen d → tally_get k d = count_key k seen.
Proof.
  intros (Hnd & Hent & Hcov & _).
  destruct (decide (k ∈ d.*1)) as [Hin|Hnin].
  - apply list_elem_of_fmap in Hin as ([k' [v n]] & -> & Hin).
    rewrite (tally_get_elem _ _ _ _ Hnd Hin). by apply Hent in Hin as (_ & ? & _).
  - rewrite tally_get_notin by done. unfold count_key.
    destruct (filter _ seen) as [|r rs] eqn:Hf; [done|]. exfalso.
    assert (r ∈ filter (λ r, key_of (dict_get_or field dflt r) = Ok k) seen)
      as [Hr Hseen]%list_elem_of_filter by (rewrite Hf; left).
    destruct (Hcov r Hseen) as (k' & Hk' & Hin). congruence.
Qed.

Lemma tally_ok_step seen d r k :
  tally_ok seen d → key_of (dict_get_or field dflt r) = Ok k →
  tally_ok (seen ++ [r])
    (tally_set k (dict_get_or field dflt r) (tally_get k d + 1) d).
Proof.
  intros Hok Hk. pose proof (tally_ok_get _ _ k Hok) as Hget.
  destruct Hok as (Hnd & Hent & Hcov & Hsum).
  split; [by apply tally_set_NoDup|]. split; [|split].
  - intros k' v' n' Hin. rewrite count_key_snoc.
    apply tally_set_elem in Hin
      as [(-> & -> & [[_ ->]|[n0 Hin]])|[Hne Hin]]; [| | |done].
    + rewrite decide_True by done. split; [done|]. lia.
    + rewrite decide_True by done. apply Hent in Hin as (? & _ & _).
      split; [done|]. lia.
    + rewrite decide_False by congruence.
      apply Hent in Hin as (? & ? & ?). split; [done|]. lia.
  - intros r' [Hr'| ->%list_elem_of_singleton]%elem_of_app.
    + destruct (Hcov r' Hr') as (k' & ? & ?). exists k'. split; [done|].
      rewrite tally_set_keys. case_decide; [done|].
      apply elem_of_app. by left.
    + exists k. split; [done|]. rewrite tally_set_keys.
      case_decide; [done|]. apply elem_of_app. right. left.
  - pose proof (tally_set_sum k (dict_get_or field dflt r)
                  (tally_get k d + 1) d).
    rewrite length_app. simpl. lia.
Qed.

Lemma count_records_ok data seen d :
  tally_ok seen d →
  Forall (λ r, ∃ k, key_of (dict_get_or field dflt r) = Ok k) data →
  ∃ d', count_records key_of field dflt data d = Ok d'
        ∧ tally_ok (seen ++ data) d'.
Proof.
  intros Hok Hhash. revert seen d Hok.
  induction Hhash as [|r data [k Hk] _ IH]; intros seen d Hok.
  - exists d. by rewrite app_nil_r.
  - cbn [count_records]. unfold count_record. rewrite Hk.
    destruct (IH _ _ (tally_ok_step _ _ _ _ Hok Hk)) as (d' & Hd' & Hok').
    exists d'. split; [done|]. by rewrite <-app_assoc in Hok'.
Qed.

Lemma tally_ok_nil : tally_ok [] [].
Proof.
  split; [constructor|]. split; [by intros ??? ?%elem_of_nil|].
  split; [by intros ? ?%elem_of_nil | done].
Qed.

Lemma tally_distribution data d :
  tally_ok data d →
  distribution_of key_of field dflt data (sorted_desc (items d)).
Proof.
  intros (Hnd & Hent & Hcov & Hsum).
  assert (∀ e, e ∈ sorted_desc (items d) ↔ ∃ k, (k, e) ∈ d) as Hin.
  { intros e. rewrite sorted_desc_Permutation. unfold items.
    rewrite list_elem_of_fmap. split.
    - intros ([k e'] & -> & ?). by exists k.
    - intros (k & ?). by exists (k, e). }
  split; [|split; [|split; [|split]]].
  - intros [v n] (k & Hk)%Hin. apply Hent in Hk as (Hv & -> & ?).
    split; [|done]. unfold rows_with, count_key. simpl. by rewrite Hv.
  - intros r Hr. destruct (Hcov r Hr) as (k & Hk & Hkd).
    apply list_elem_of_fmap in Hkd as ([k' [v n]] & -> & Hkd).
    exists (v, n). split; [apply Hin; by eexists|].
    apply Hent in Hkd as (Hv & _). simpl in *. congruence.
  - rewrite sorted_desc_Permutation. unfold items.
    rewrite <-list_fmap_compose.
    assert ((λ e, key_of e.1) ∘ snd <$> d = Ok <$> d.*1) as ->.
    { rewrite <-list_fmap_compose. apply list_fmap_ext.
      intros i [k [v n]] Hi%list_elem_of_lookup_2. simpl.
      by apply Hent in Hi as (? & _). }
    apply NoDup_fmap_2; [|done]. by intros ?? [= ->].
  - rewrite sorted_desc_Permutation. unfold items.
    rewrite <-list_fmap_compose. by rewrite <-Hsum.
  - apply sorted_desc_sorted.
Qed.

Lemma counted_distribution data :
  Forall (λ r, ∃ k, key_of (dict_get_or field dflt r) = Ok k) data →
  ∃ d, count_records key_of field dflt data [] = Ok d
       ∧ distribution_of key_of field dflt data (sorted_desc (items d)).
Proof.
  intros Hhash.
  destruct (count_records_ok data [] [] tally_ok_nil Hhash) as (d & Hd & Hok).
  exists d. split; [done|]. by apply tally_distribution.
Qed.

End counting.

(** [count / total * 100] *)
Definition share (count total : nat) : Q :=
  (inject_Z (Z.of_nat count) / inject_Z (Z.of_nat total) * 100)%Q.

Lemma share_bounds (count total : nat) :
  (1 ≤ count)%nat → (count ≤ total)%nat →
  (0 <= share count total)%Q ∧ (share count total <= 100)%Q.
Proof.
  intros Hpos Hle.
  pose proof (percentage_bounds count total Hle ltac:(lia)) as (? & ? & _).
  done.
Qed.

Lemma rows_with_le {K} `{!EqDecision K} (key_of : value → result K)
    field dflt data v :
  (rows_with key_of field dflt data v ≤ length data)%nat.
Proof. apply length_filter. Qed.

Lemma sum_list_elem_le (x : nat) (l : list nat) :
  x ∈ l → (x ≤ sum_list l)%nat.
Proof.
  induction l as [|y l IH]; [by intros ?%elem_of_nil|].
  intros [->|Hx]%elem_of_cons; simpl; [lia|]. apply IH in Hx. lia.
Qed.

(** X11: when the status of every row can be a dict key, the status
    distribution never fails, whatever the rows, and prints after its
    heading one line for each distinct status, with the number of rows of
    that status and that number's share of all rows, the largest count
    first; the counts add up to the number of rows, and every share lies
    between 0 and 100. *)
Theorem status_distribution_counts {K} `{!EqDecision K}
    (key_of : value → result K) (data : list record)
    (Hhash : Forall (λ r, ∃ k, key_of (dict_get_or "status" (VStr "unknown") r)
                               = Ok k) data) :
  ∃ entries,
    distribution_of key_of "status" (VStr "unknown") data entries
    ∧ status_distribution key_of data
      = (StatusHeading
         :: ((λ e, StatusLine e.1 e.2 (share e.2 (length data))) <$> entries),
         Ok ())
    ∧ (∀ e, e ∈ entries →
            (0 <= share e.2 (length data))%Q
            ∧ (share e.2 (length data) <= 100)%Q).
Proof.
  destruct (counted_distribution key_of "status" (VStr "unknown") data Hhash)
    as (d & Hd & Hdist).
  exists (sorted_desc (items d)). split; [done|]. split.
  - unfold status_distribution. rewrite emit_bind.
    destruct data as [|r data].
    { simpl in Hd. injection Hd as <-. done. }
    rewrite Hd, compute_bind_Ok.
    rewrite (for_all_lines _
               (λ e, StatusLine e.1 e.2 (share e.2 (length (r :: data))))).
    + done.
    + intros [status count] _. unfold py_div.
      rewrite decide_False by done. by rewrite compute_bind_Ok.
  - intros e He. destruct Hdist as (Hcount & _).
    destruct (Hcount e He) as [Hrows Hpos].
    apply share_bounds; [done|]. rewrite Hrows. apply rows_with_le.
Qed.

Lemma status_distribution_counts_witness :
  Forall (λ r, ∃ k, text_key (dict_get_or "status" (VStr "unknown") r) = Ok k)
    scenario_status
  ∧ ∃ entries,
      distribution_of text_key "status" (VStr "unknown") scenario_status
        entries
      ∧ status_distribution text_key scenario_status
        = (StatusHeading
           :: ((λ e, StatusLine e.1 e.2 (share e.2 (length scenario_status)))
                 <$> entries), Ok ())
      ∧ (∀ e, e ∈ entries →
              (0 <= share e.2 (length scenario_status))%Q
              ∧ (share e.2 (length scenario_status) <= 100)%Q).
Proof.
  assert (Forall (λ r, ∃ k, text_key (dict_get_or "status" (VStr "unknown") r)
                            = Ok k) scenario_status) as Hhash.
  { repeat constructor; by eexists. }
  split; [exact Hhash|].
  exact (status_distribution_counts text_key scenario_status Hhash).
Defined.

(** X12: when the phase of every row can be a dict key, the phase
    distribution never fails and prints after its heading the ten
    phases with the most rows, or all of them when there are fewer, with
    their numbers of rows, the largest first; no phase left out has more
    rows than one that is printed. *)
Theorem phase_distribution_top_ten {K} `{!EqDecision K}
    (key_of : value → result K) (data : list record)
    (Hhash : Forall (λ r, ∃ k, key_of (dict_get_or "phase"
                                         (VStr "Not specified") r) = Ok k)
               data) :
  ∃ entries,
    distribution_of key_of "phase" (VStr "Not specified") data entries
    ∧ phase_distribution key_of data
      = (PhaseHeading :: ((λ e, PhaseLine e.1 e.2) <$> take 10 entries),
         Ok ())
    ∧ (∀ e e', e ∈ take 10 entries → e' ∈ drop 10 entries →
               (e'.2 ≤ e.2)%nat).
Proof.
  destruct (counted_distribution key_of "phase" (VStr "Not specified")
              data Hhash) as (d & Hd & Hdist).
  exists (sorted_desc (items d)). split; [done|]. split.
  - unfold phase_distribution. rewrite emit_bind.
    destruct data as [|r data].
    { simpl in Hd. injection Hd as <-. done. }
    rewrite Hd, compute_bind_Ok.
    rewrite (for_all_lines _ (λ e, PhaseLine e.1 e.2)); [done|].
    by intros [phase count] _.
  - intros e e' He He'. destruct Hdist as (_ & _ & _ & _ & Hsorted).
    rewrite <-(take_drop 10 (sorted_desc (items d))) in Hsorted.
    by apply (StronglySorted_app_1_elem_of _ _ _ e e') in Hsorted.
Qed.

(** The rows [[{"phase": "1"}, {"phase": "2"}, {"phase": "2"}]]. *)
Definition scenario_phase : list record :=
  [ [("phase", VStr "1")]; [("phase", VStr "2")]; [("phase", VStr "2")] ].

Lemma phase_distribution_top_ten_witness :
  Forall (λ r, ∃ k, text_key (dict_get_or "phase" (VStr "Not specified") r)
                    = Ok k) scenario_phase
  ∧ ∃ entries,
      distribution_of text_key "phase" (VStr "Not specified") scenario_phase
        entries
      ∧ phase_distribution text_key scenario_phase
        = (PhaseHeading :: ((λ e, PhaseLine e.1 e.2) <$> take 10 entries),
           Ok ())
      ∧ (∀ e e', e ∈ take 10 entries → e' ∈ drop 10 entries →
                 (e'.2 ≤ e.2)%nat).
Proof.
  assert (Forall (λ r, ∃ k, text_key (dict_get_or "phase"
                                        (VStr "Not specified") r) = Ok k)
            scenario_phase) as Hhash.
  { repeat constructor; by eexists. }
  split; [exact Hhash|].
  exact (phase_distribution_top_ten text_key scenario_phase Hhash).
Defined.

Example phase_distribution_scenario :
  phase_distribution text_key scenario_phase
  = ([PhaseHeading; PhaseLine (VStr "2") 2; PhaseLine (VStr "1") 1], Ok ()).
Proof. vm_compute. reflexivity. Qed.

(** ** The percentages of [analyze_clinical_trials_psycopg.py] *)

(** The status distribution, from [total_records] of the first query and
    the rows [(status, count)] of the grouping query. *)
Definition psycopg_status_distribution (total_records : nat)
    (status_dist : list (value * nat)) : emitting dist_line unit :=
  emit StatusHeading;;
  for_all (λ '(status, count),
             q ← compute (py_div count total_records);
             emit (StatusLine status count (q * 100)%Q))
          status_dist.

(** The lines of the JSONB field population. *)
Inductive jsonb_line :=
| JsonbHeading                      (* "\n\nJSONB field population:" *)
| JsonbPopulation (field : string) (has total : nat) (percentage : Q).
    (* "  - {field}: {has}/{total} ({has/total*100:.1f}%)" *)

(** The JSONB field population, from the row of counts of its query. *)
Definition jsonb_population
    (has_eligibility has_locations has_contact total : nat)
    : emitting jsonb_line unit :=
  emit JsonbHeading;;
  q ← compute (py_div has_eligibility total);
  emit (JsonbPopulation "eligibility_criteria" has_eligibility total
          (q * 100)%Q);;
  q ← compute (py_div has_locations total);
  emit (JsonbPopulation "locations" has_locations total (q * 100)%Q);;
  q ← compute (py_div has_contact total);
  emit (JsonbPopulation "contact_info" has_contact total (q * 100)%Q).

(** X13: the status distribution of the psycopg script divides by
    [total_records]: when the group counts add up to [total_records], as
    they do for one state of the table, it never fails and prints one
    line for each group, every share between 0 and 100; when
    [total_records] is 0 and there is a group, it ends in a
    [ZeroDivisionError] after the heading. *)
Theorem psycopg_status_shares (total_records : nat)
    (status_dist : list (value * nat)) :
  (sum_list (snd <$> status_dist) = total_records →
   Forall (λ e, (1 ≤ e.2)%nat) status_dist →
   psycopg_status_distribution total_records status_dist
   = (StatusHeading
      :: ((λ e, StatusLine e.1 e.2 (share e.2 total_records)) <$> status_dist),
      Ok ())
   ∧ (∀ e, e ∈ status_dist →
           (0 <= share e.2 total_records)%Q
           ∧ (share e.2 total_records <= 100)%Q))
  ∧ (total_records = 0%nat → status_dist ≠ [] →
     psycopg_status_distribution total_records status_dist
     = ([StatusHeading], Raise ZeroDivisionError)).
Proof.
  split.
  - intros Hsum Hpos. split.
    + unfold psycopg_status_distribution. rewrite emit_bind.
      destruct status_dist as [|[status count] rows]; [done|].
      assert (total_records ≠ 0%nat) as Hne.
      { apply Forall_cons in Hpos as [Hc _]. simpl in *. lia. }
      rewrite (for_all_lines _
                 (λ e, StatusLine e.1 e.2 (share e.2 total_records)));
        [done|].
      intros [s c] _. unfold py_div. rewrite decide_False by done.
      by rewrite compute_bind_Ok.
    + intros e He. apply share_bounds.
      * by eapply Forall_forall in Hpos.
      * rewrite <-Hsum. apply sum_list_elem_le.
        apply list_elem_of_fmap. by exists e.
  - intros -> Hne. destruct status_dist as [|[status count] rows]; done.
Qed.

(** X14: the JSONB field population of the psycopg script divides by the
    number of rows of the table without a guard: on an empty table it
    ends in a [ZeroDivisionError] after the heading, before any field is
    reported; on any other it prints the three fields and returns, each
    share between 0 and 100 when the field's count is at most the
    total. *)
Theorem jsonb_population_division
    (has_eligibility has_locations has_contact total : nat) :
  (total = 0%nat →
   jsonb_population has_eligibility has_locations has_contact total
   = ([JsonbHeading], Raise ZeroDivisionError))
  ∧ (total ≠ 0%nat →
     jsonb_population has_eligibility has_locations has_contact total
     = ([JsonbHeading;
         JsonbPopulation "eligibility_criteria" has_eligibility total
           (share has_eligibility total);
         JsonbPopulation "locations" has_locations total
           (share has_locations total);
         JsonbPopulation "contact_info" has_contact total
           (share has_contact total)], Ok ())
     ∧ ∀ has, (has ≤ total)%nat →
              (0 <= share has total)%Q ∧ (share has total <= 100)%Q).
Proof.
  split.
  - by intros ->.
  - intros Hne. split.
    + unfold jsonb_population, py_div. rewrite !decide_False by done.
      rewrite emit_bind, !compute_bind_Ok, !emit_bind. done.
    + intros has Hhas.
      pose proof (percentage_bounds has total Hhas ltac:(lia))
        as (? & ? & _). done.
Qed.

(** ** The two scripts *)

(** The functions of the psycopg script are those of the other script, so
    what is proved above of the one holds of the other. *)
Lemma psycopg_column_population :
  Psycopg.analyze_column_population = Supabase.analyze_column_population.
Proof. reflexivity. Qed.

Lemma psycopg_jsonb_field :
  Psycopg.analyze_jsonb_field = Supabase.analyze_jsonb_field.
Proof. reflexivity. Qed.
